(** * resource-metrics: the resource calculator of [api/interface.go]

    A shallow embedding of the Go package [api] (file [api/interface.go]) and
    of the library calls it makes, followed by the properties of the
    calculator that the specification states.

    Layout, one Rocq module per Go package:
    - [go]            what the language itself does: int64 wrap-around, the
                      (value, error) convention, run-time panics;
    - [resource]      [k8s.io/apimachinery/pkg/api/resource]: quantities;
    - [core]          [k8s.io/api/core/v1]: resource lists and requirements;
    - [unstructured]  documents and [NestedFieldNoCopy];
    - [runtime]       [DefaultUnstructuredConverter.FromUnstructured] for the
                      three struct types the package decodes;
    - [api]           the package itself, function by function;
    - [fixture]       a small converter, calculator and documents on which
                      the model is run. *)

From Stdlib Require Import ZArith Lia.
From stdpp Require Import gmap strings list fin_maps.

Set Warnings "-register-all".
Open Scope Z_scope.

(** ** Documents

    A workload document is what [map[string]interface{}] holds after the
    Kubernetes JSON/YAML decoders: null, booleans, int64 and float64 numbers,
    strings, objects and arrays.  A finite float64 is [m * 2^e]. *)

Inductive value : Type :=
  | VNull
  | VBool (b : bool)
  | VInt (n : Z)
  | VFloat (m e : Z)
  | VString (s : string)
  | VMap (m : gmap string value)
  | VArr (l : list value).

(** ** The Go language *)

Module go.

(** [error] values.  [AccessorError] is the "accessor error: ... is of the
    type ..., expected ..." message built by [NestedFieldNoCopy] and by
    [AggregateContainerResources]; it carries the path, the offending value
    and the expected Go type.  [ConversionError] stands for any error of
    [FromUnstructured].  [Wrapped] is [fmt.Errorf("...: %w", err)].
    [PluginError] is an error made by a calculator's own functions. *)
Inductive error : Type :=
  | AccessorError (path : list string) (v : value) (expected : string)
  | ConversionError
  | Wrapped (msg : string) (cause : error)
  | PluginError (msg : string).

(** The two run-time panics the package can raise. *)
Inductive panic : Type :=
  | InterfaceConversion (v : value) (* x.(T) without the ", ok" form, x not a T *)
  | NilMapAssignment.             (* m[k] = v on a nil map *)

(** Outcome of a call whose last result is an [error]. *)
Inductive Result (A : Type) : Type :=
  | Ok (a : A)
  | Err (e : error)
  | Panic (p : panic).
Arguments Ok {A} a.
Arguments Err {A} e.
Arguments Panic {A} p.

Definition bind {A B} (r : Result A) (k : A -> Result B) : Result B :=
  match r with
  | Ok a => k a
  | Err e => Err e
  | Panic p => Panic p
  end.

Definition isOk {A} (r : Result A) : bool :=
  match r with Ok _ => true | _ => false end.

Definition min_int64 : Z := - 2 ^ 63.
Definition max_int64 : Z := 2 ^ 63 - 1.

Definition fits_int64 (z : Z) : bool := (min_int64 <=? z) && (z <=? max_int64).

(** int64 arithmetic wraps around. *)
Definition wrap64 (z : Z) : Z := (z + 2 ^ 63) mod 2 ^ 64 - 2 ^ 63.

Definition add64 (a b : Z) : Z := wrap64 (a + b).
Definition mul64 (a b : Z) : Z := wrap64 (a * b).

(** A Go map is a reference that may be nil: reads of a nil map find
    nothing, a write to it panics. *)
Definition mapassign {K V} `{Countable K}
  (m : option (gmap K V)) (k : K) (v : V) : Result (option (gmap K V)) :=
  match m with
  | None => Panic NilMapAssignment
  | Some g => Ok (Some (<[k := v]> g))
  end.

Definition mapaccess {K V} `{Countable K} (m : option (gmap K V)) (k : K) : option V :=
  match m with
  | None => None
  | Some g => g !! k
  end.

End go.

(** [Result] is a monad; stdpp's [x ← r; k] sequences calls the way
    [if err != nil { return ..., err }] does. *)
#[global] Instance Result_ret : MRet go.Result := @go.Ok.
#[global] Instance Result_bind : MBind go.Result := fun A B k r => go.bind r k.

(** ** Quantities *)

Module resource.

Inductive Format : Type := FormatUnset | DecimalExponent | BinarySI | DecimalSI.

(** A [Quantity] is an exact decimal number and a display format.
    [ParseQuantity] rounds every number it reads up to a multiple of 10^-9,
    and [Add] and [SetMilli] keep multiples of 10^-9, so the number is held
    here as a count of nano-units: [nanos = 10^9] is one cpu or one byte. *)
Record Quantity : Type := mkQuantity { nanos : Z; fmt : Format }.

Definition zero (f : Format) : Quantity := mkQuantity 0 f.

Definition IsZero (q : Quantity) : bool := nanos q =? 0.

(** [q.Add(y)]: exact sum; a zero receiver takes the format of [y]. *)
Definition Add (q y : Quantity) : Quantity :=
  mkQuantity (nanos q + nanos y) (if nanos q =? 0 then fmt y else fmt q).

(** [q.Cmp(y)] is -1, 0 or 1. *)
Definition Cmp (q y : Quantity) : Z :=
  match nanos q ?= nanos y with
  | Lt => -1
  | Eq => 0
  | Gt => 1
  end.

(** Division by [d > 0] rounding away from zero. *)
Definition div_away (a d : Z) : Z :=
  if Z.rem a d =? 0 then Z.quot a d else Z.quot a d + Z.sgn a.

(** [q.MilliValue()], as the library computes it for a quantity held in its
    int64 form: the number of milli-units, rounded away from zero, and 0
    where that does not fit in an int64.  For a quantity held in the
    big-decimal form the library rounds towards plus infinity and truncates
    what does not fit, so the two forms agree, and the answer is a function
    of the number alone, exactly when the milli-value fits in an int64 and
    the quantity is not negative or is a whole number of milli-units.  Every
    property below that rests on [MilliValue] carries these conditions
    ([milliFits] with [nonNegative] or [wholeMilli]). *)
Definition MilliValue (q : Quantity) : Z :=
  let m := div_away (nanos q) (10 ^ 6) in
  if go.fits_int64 m then m else 0.

(** [q.SetMilli(v)] keeps the format. *)
Definition SetMilli (q : Quantity) (v : Z) : Quantity :=
  mkQuantity (v * 10 ^ 6) (fmt q).

End resource.

(** ** Resource lists *)

Module core.

Definition ResourceCPU : string := "cpu".
Definition ResourceMemory : string := "memory".
Definition ResourceStorage : string := "storage".

(** [type ResourceList map[ResourceName]resource.Quantity]; [None] is the
    nil map. *)
Abbreviation ResourceList := (option (gmap string resource.Quantity)).

Record ResourceRequirements : Type :=
  mkResourceRequirements { Limits : ResourceList; Requests : ResourceList }.

(** [rl.Name(name, defaultFormat)]: the entry, or a zero quantity of the
    default format when the key is missing (also for a nil list). *)
Definition Name (rl : ResourceList) (name : string) (defaultFormat : resource.Format)
  : resource.Quantity :=
  match go.mapaccess rl name with
  | Some val => val
  | None => resource.zero defaultFormat
  end.

Definition Cpu (rl : ResourceList) := Name rl ResourceCPU resource.DecimalSI.
Definition Memory (rl : ResourceList) := Name rl ResourceMemory resource.BinarySI.
Definition Storage (rl : ResourceList) := Name rl ResourceStorage resource.BinarySI.

(** The storage claim of a pod group; only [resources] is read here. *)
Record PersistentVolumeClaimSpec : Type :=
  mkPersistentVolumeClaimSpec { Resources : ResourceRequirements }.

End core.

(** ** The pod template of [kmodules.xyz/offshoot-api]

    Of the pod template only [Spec.Resources] is read (JSON fields [spec]
    and [resources]). *)

Module ofst.

Record PodSpec : Type := mkPodSpec { Resources : core.ResourceRequirements }.

Record PodTemplateSpec : Type := mkPodTemplateSpec { Spec : PodSpec }.

End ofst.

(** ** Reading a document by path *)

Module unstructured.

(** The three outcomes of [NestedFieldNoCopy]: [(val, true, nil)],
    [(nil, false, nil)] and [(nil, false, err)]. *)
Inductive Nested : Type :=
  | Found (val : value)
  | NotFound
  | Failed (err : go.error).

(** The loop of [NestedFieldNoCopy]; [seen] is [fields[:i]], kept for the
    path of the error message. *)
Fixpoint walk (val : value) (seen fields : list string) : Nested :=
  match fields with
  | [] => Found val
  | field :: rest =>
      match val with
      | VNull => NotFound
      | VMap m =>
          match m !! field with
          | Some val' => walk val' (seen ++ [field]) rest
          | None => NotFound
          end
      | _ => Failed (go.AccessorError (seen ++ [field]) val "map[string]interface{}")
      end
  end.

Definition NestedFieldNoCopy (obj : gmap string value) (fields : list string) : Nested :=
  walk (VMap obj) [] fields.

(** The outcomes of the typed readers: [(x, true, nil)], [(zero, false, nil)]
    and [(zero, false, err)]. *)
Inductive Typed (A : Type) : Type :=
  | Has (x : A)
  | Missing
  | Mistyped (err : go.error).
Arguments Has {A} x.
Arguments Missing {A}.
Arguments Mistyped {A} err.

(** [NestedInt64]: the leaf must be an int64. *)
Definition NestedInt64 (obj : gmap string value) (fields : list string) : Typed Z :=
  match NestedFieldNoCopy obj fields with
  | NotFound => Missing
  | Failed err => Mistyped err
  | Found (VInt i) => Has i
  | Found val => Mistyped (go.AccessorError fields val "int64")
  end.

(** [NestedString]: the leaf must be a string. *)
Definition NestedString (obj : gmap string value) (fields : list string) : Typed string :=
  match NestedFieldNoCopy obj fields with
  | NotFound => Missing
  | Failed err => Mistyped err
  | Found (VString s) => Has s
  | Found val => Mistyped (go.AccessorError fields val "string")
  end.

(** [NestedMap]: the leaf must be an object; the copy it returns is the
    same value. *)
Definition NestedMap (obj : gmap string value) (fields : list string)
  : Typed (gmap string value) :=
  match NestedFieldNoCopy obj fields with
  | NotFound => Missing
  | Failed err => Mistyped err
  | Found (VMap m) => Has m
  | Found val => Mistyped (go.AccessorError fields val "map[string]interface{}")
  end.

(** [x, _, err := Nested...(...)]: the value read, the zero value [zero]
    when the path is absent, or the error. *)
Definition orZero {A} (zero : A) (r : Typed A) : go.Result A :=
  match r with
  | Has x => go.Ok x
  | Missing => go.Ok zero
  | Mistyped err => go.Err err
  end.

End unstructured.

(** ** Decoding a sub-document into a struct *)

Module runtime.

(** Structs declared outside the repository that [FromUnstructured] fills
    on the way to the resource lists. *)
Inductive ForeignStruct : Type :=
  | PodTemplateSpecT
  | PodSpecT
  | PersistentVolumeClaimSpecT
  | ResourceRequirementsT.

(** [runtime.DefaultUnstructuredConverter], as far as this package sees it.
    - [quantityFromJSON v]: [Quantity.UnmarshalJSON] on the JSON encoding of
      a non-null [v] ([None] when [ParseQuantity] rejects it);
    - [otherFieldsConvert T m]: whether the fields of the foreign struct [T]
      that this package never reads convert without error from the object
      [m] (metadata, access modes, selectors and so on). *)
Record UnstructuredConverter : Type := mkUnstructuredConverter {
  quantityFromJSON : value -> option resource.Quantity;
  otherFieldsConvert : ForeignStruct -> gmap string value -> bool
}.

Section FromUnstructured.

Context (DefaultUnstructuredConverter : UnstructuredConverter).

(** A map element: a null gives the zero value [Quantity{}]. *)
Definition quantityFromUnstructured (v : value) : option resource.Quantity :=
  match v with
  | VNull => Some (resource.zero resource.FormatUnset)
  | _ => quantityFromJSON DefaultUnstructuredConverter v
  end.

(** [mapFromUnstructured] at type [core.ResourceList].  A missing or null
    field leaves the nil map; an object gives a fresh map with one entry per
    key (also when the object is empty); anything else is an error. *)
Definition resourceListFromUnstructured (sv : option value) : go.Result core.ResourceList :=
  match sv with
  | None | Some VNull => go.Ok None
  | Some (VMap m) =>
      let dv := quantityFromUnstructured <$> m in
      if bool_decide (map_Forall (fun _ o => is_Some o) dv)
      then go.Ok (Some (omap id dv))
      else go.Err go.ConversionError
  | Some _ => go.Err go.ConversionError
  end.

(** [structFromUnstructured] at type [core.ResourceRequirements] (JSON
    fields [limits] and [requests]). *)
Definition resourceRequirementsFromUnstructured (sv : option value)
  : go.Result core.ResourceRequirements :=
  match sv with
  | None | Some VNull => go.Ok (core.mkResourceRequirements None None)
  | Some (VMap m) =>
      limits ← resourceListFromUnstructured (m !! "limits");
      requests ← resourceListFromUnstructured (m !! "requests");
      if otherFieldsConvert DefaultUnstructuredConverter ResourceRequirementsT m
      then go.Ok (core.mkResourceRequirements limits requests)
      else go.Err go.ConversionError
  | Some _ => go.Err go.ConversionError
  end.

(** At type [core.PersistentVolumeClaimSpec] (JSON field [resources]). *)
Definition persistentVolumeClaimSpecFromUnstructured (sv : option value)
  : go.Result core.PersistentVolumeClaimSpec :=
  match sv with
  | None | Some VNull =>
      go.Ok (core.mkPersistentVolumeClaimSpec (core.mkResourceRequirements None None))
  | Some (VMap m) =>
      resources ← resourceRequirementsFromUnstructured (m !! "resources");
      if otherFieldsConvert DefaultUnstructuredConverter PersistentVolumeClaimSpecT m
      then go.Ok (core.mkPersistentVolumeClaimSpec resources)
      else go.Err go.ConversionError
  | Some _ => go.Err go.ConversionError
  end.

(** At type [ofst.PodSpec] (JSON field [resources]). *)
Definition podSpecFromUnstructured (sv : option value) : go.Result ofst.PodSpec :=
  match sv with
  | None | Some VNull => go.Ok (ofst.mkPodSpec (core.mkResourceRequirements None None))
  | Some (VMap m) =>
      resources ← resourceRequirementsFromUnstructured (m !! "resources");
      if otherFieldsConvert DefaultUnstructuredConverter PodSpecT m
      then go.Ok (ofst.mkPodSpec resources)
      else go.Err go.ConversionError
  | Some _ => go.Err go.ConversionError
  end.

(** At type [ofst.PodTemplateSpec] (JSON field [spec]). *)
Definition podTemplateSpecFromUnstructured (sv : option value)
  : go.Result ofst.PodTemplateSpec :=
  match sv with
  | None | Some VNull =>
      go.Ok (ofst.mkPodTemplateSpec (ofst.mkPodSpec (core.mkResourceRequirements None None)))
  | Some (VMap m) =>
      spec ← podSpecFromUnstructured (m !! "spec");
      if otherFieldsConvert DefaultUnstructuredConverter PodTemplateSpecT m
      then go.Ok (ofst.mkPodTemplateSpec spec)
      else go.Err go.ConversionError
  | Some _ => go.Err go.ConversionError
  end.

(** Whether the float64 [m * 2^e] equals its truncation, and the integer
    it then is. *)
Definition floatIntegral (m e : Z) : option Z :=
  if 0 <=? e then Some (m * 2 ^ e)
  else if m mod 2 ^ (- e) =? 0 then Some (m / 2 ^ (- e))
  else None.

(** [pointerFromUnstructured] at type [*int64]: a missing or null field
    leaves the nil pointer; an int64, or a float64 that is a whole number,
    is stored; anything else is an error. *)
Definition int64PtrFromUnstructured (sv : option value) : go.Result (option Z) :=
  match sv with
  | None | Some VNull => go.Ok None
  | Some (VInt n) => go.Ok (Some n)
  | Some (VFloat m e) =>
      match floatIntegral m e with
      | Some n => go.Ok (Some (go.wrap64 n))
      | None => go.Err go.ConversionError
      end
  | Some _ => go.Err go.ConversionError
  end.

End FromUnstructured.

End runtime.

(** ** Package [api] *)

Module api.

(** Modelled from the spec: [PodRole] is declared in a file of the package
    other than [interface.go]; the specification calls it an opaque label
    and the code uses it as a map key and writes role lists as literals, so
    it is a string here. *)
Abbreviation PodRole := string.

(** Modelled from the spec: [ReplicaList], declared next to [PodRole], maps
    a role to its replica count, which [Replicas] adds up in an int64.
    [RoleResourceList] is [map[PodRole]core.ResourceList].  Both maps are
    only ever read by this package, so a nil map and an empty one are not
    told apart. *)
Abbreviation ReplicaList := (gmap string Z).
Abbreviation RoleResourceList := (gmap string core.ResourceList).

Abbreviation Object := (gmap string value).

(** *** Arithmetic on resource lists *)

Definition ResourceListForRoles (rr : RoleResourceList) (roles : list PodRole)
  : core.ResourceList :=
  let cpu := resource.zero resource.DecimalSI in
  let memory := resource.zero resource.BinarySI in
  let storage := resource.zero resource.BinarySI in
  let '(cpu, memory, storage) :=
    fold_left
      (fun '(cpu, memory, storage) role =>
         let rl : core.ResourceList := default None (rr !! role) in
         (resource.Add cpu (core.Cpu rl),
          resource.Add memory (core.Memory rl),
          resource.Add storage (core.Storage rl)))
      roles (cpu, memory, storage) in
  let result : gmap string resource.Quantity := ∅ in
  let result :=
    if negb (resource.IsZero cpu) then <[core.ResourceCPU := cpu]> result else result in
  let result :=
    if negb (resource.IsZero memory) then <[core.ResourceMemory := memory]> result
    else result in
  let result :=
    if negb (resource.IsZero storage) then <[core.ResourceStorage := storage]> result
    else result in
  Some result.

Definition AddResourceList (x y : core.ResourceList) : core.ResourceList :=
  let result : gmap string resource.Quantity := ∅ in
  let cpu := resource.zero resource.DecimalSI in
  let cpu := resource.Add cpu (core.Cpu x) in
  let cpu := resource.Add cpu (core.Cpu y) in
  let result :=
    if negb (resource.IsZero cpu) then <[core.ResourceCPU := cpu]> result else result in
  let memory := resource.zero resource.BinarySI in
  let memory := resource.Add memory (core.Memory x) in
  let memory := resource.Add memory (core.Memory y) in
  let result :=
    if negb (resource.IsZero memory) then <[core.ResourceMemory := memory]> result
    else result in
  let storage := resource.zero resource.BinarySI in
  let storage := resource.Add storage (core.Storage x) in
  let storage := resource.Add storage (core.Storage y) in
  let result :=
    if negb (resource.IsZero storage) then <[core.ResourceStorage := storage]> result
    else result in
  Some result.

(** The three blocks of [MulResourceList] are the same code on [x.Cpu()],
    [x.Memory()] and [x.Storage()]; [mulEntry] is one block.  The product
    [q.MilliValue() * multiplier] is an int64 product. *)
Definition mulEntry (name : string) (q : resource.Quantity) (multiplier : Z)
  (result : gmap string resource.Quantity) : gmap string resource.Quantity :=
  if negb (resource.IsZero q) then
    let n := resource.mkQuantity 0 (resource.fmt q) in
    let n := resource.SetMilli n (go.mul64 (resource.MilliValue q) multiplier) in
    <[name := n]> result
  else result.

Definition MulResourceList (x : core.ResourceList) (multiplier : Z) : core.ResourceList :=
  let result : gmap string resource.Quantity := ∅ in
  let result := mulEntry core.ResourceCPU (core.Cpu x) multiplier result in
  let result := mulEntry core.ResourceMemory (core.Memory x) multiplier result in
  let result := mulEntry core.ResourceStorage (core.Storage x) multiplier result in
  Some result.

(** One block of [MaxResourceList]: the greater of the two quantities, the
    first on a tie, stored unless it is zero. *)
Definition maxEntry (name : string) (xq yq : resource.Quantity)
  (result : gmap string resource.Quantity) : gmap string resource.Quantity :=
  let q := if 0 <=? resource.Cmp xq yq then xq else yq in
  if negb (resource.IsZero q) then <[name := q]> result else result.

Definition MaxResourceList (x y : core.ResourceList) : core.ResourceList :=
  let result : gmap string resource.Quantity := ∅ in
  let result := maxEntry core.ResourceCPU (core.Cpu x) (core.Cpu y) result in
  let result := maxEntry core.ResourceMemory (core.Memory x) (core.Memory y) result in
  let result := maxEntry core.ResourceStorage (core.Storage x) (core.Storage y) result in
  Some result.

Definition ResourceLimits (rr : core.ResourceRequirements) : core.ResourceList :=
  core.Limits rr.

Definition ResourceRequests (rr : core.ResourceRequirements) : core.ResourceList :=
  core.Requests rr.

(** *** The default adapter *)

Record ResourceCalculatorFuncs : Type := mkResourceCalculatorFuncs {
  AppRoles : list PodRole;
  RuntimeRoles : list PodRole;
  RoleReplicasFn : Object -> go.Result ReplicaList;
  ModeFn : option (Object -> go.Result string);
  RoleResourceLimitsFn : Object -> go.Result RoleResourceList;
  RoleResourceRequestsFn : Object -> go.Result RoleResourceList
}.

Section Adapter.

(** The reserved init role, a constant declared next to [PodRole]; its
    value plays no part, so it is a parameter. *)
Context (InitPodRole : PodRole).

Context (c : ResourceCalculatorFuncs).

Definition RoleReplicas (obj : Object) : go.Result ReplicaList :=
  RoleReplicasFn c obj.

Definition Replicas (obj : Object) : go.Result Z :=
  replicas ← RoleReplicas obj;
  let cnt := 0 in
  let cnt :=
    fold_left (fun cnt role => go.add64 cnt (default 0 (replicas !! role)))
      (AppRoles c) cnt in
  go.Ok cnt.

Definition Mode (obj : Object) : go.Result string :=
  match ModeFn c with
  | Some modeFn => modeFn obj
  | None => go.Ok ""%string
  end.

Definition RoleResourceLimits (obj : Object) : go.Result RoleResourceList :=
  RoleResourceLimitsFn c obj.

Definition RoleResourceRequests (obj : Object) : go.Result RoleResourceList :=
  RoleResourceRequestsFn c obj.

Definition TotalResourceLimits (obj : Object) : go.Result core.ResourceList :=
  rr ← RoleResourceLimits obj;
  go.Ok (MaxResourceList
           (ResourceListForRoles rr (RuntimeRoles c))
           (ResourceListForRoles rr [InitPodRole])).

Definition TotalResourceRequests (obj : Object) : go.Result core.ResourceList :=
  rr ← RoleResourceRequests obj;
  go.Ok (MaxResourceList
           (ResourceListForRoles rr (RuntimeRoles c))
           (ResourceListForRoles rr [InitPodRole])).

Definition AppResourceLimits (obj : Object) : go.Result core.ResourceList :=
  rr ← RoleResourceLimits obj;
  go.Ok (ResourceListForRoles rr (AppRoles c)).

Definition AppResourceRequests (obj : Object) : go.Result core.ResourceList :=
  rr ← RoleResourceRequests obj;
  go.Ok (ResourceListForRoles rr (AppRoles c)).

End Adapter.

(** *** Extraction from the document *)

Record Container : Type := mkContainer { Resources : core.ResourceRequirements }.

Record AppNode : Type := mkAppNode {
  Replicas_ : option Z;                    (* Replicas *int64, json "replicas" *)
  PodTemplate : ofst.PodTemplateSpec;      (* json "podTemplate" *)
  Storage : core.PersistentVolumeClaimSpec (* json "storage" *)
}.

Section Extraction.

Context (DefaultUnstructuredConverter : runtime.UnstructuredConverter).

Abbreviation selector := (core.ResourceRequirements -> core.ResourceList).

(** [FromUnstructured(container, &c)] at type [Container]. *)
Definition containerFromUnstructured (m : gmap string value) : go.Result Container :=
  resources ←
    runtime.resourceRequirementsFromUnstructured DefaultUnstructuredConverter
      (m !! "resources");
  go.Ok (mkContainer resources).

(** [FromUnstructured(val, &node)] at type [AppNode]. *)
Definition appNodeFromUnstructured (m : gmap string value) : go.Result AppNode :=
  replicas ← runtime.int64PtrFromUnstructured (m !! "replicas");
  podTemplate ←
    runtime.podTemplateSpecFromUnstructured DefaultUnstructuredConverter
      (m !! "podTemplate");
  storage ←
    runtime.persistentVolumeClaimSpecFromUnstructured DefaultUnstructuredConverter
      (m !! "storage");
  go.Ok (mkAppNode replicas podTemplate storage).

(** [FromUnstructured(val, &storage)] at type [core.PersistentVolumeClaimSpec]. *)
Definition storageFromUnstructured (m : gmap string value)
  : go.Result core.PersistentVolumeClaimSpec :=
  runtime.persistentVolumeClaimSpecFromUnstructured DefaultUnstructuredConverter
    (Some (VMap m)).

(** [val.(map[string]interface{})], the form that panics. *)
Definition assertMap (val : value) : go.Result (gmap string value) :=
  match val with
  | VMap m => go.Ok m
  | _ => go.Panic (go.InterfaceConversion val)
  end.

(** The [for i := range containers] loop of [AggregateContainerResources],
    [result] being the accumulator. *)
Fixpoint aggregateLoop (fn : selector)
  (aggregate : core.ResourceList -> core.ResourceList -> core.ResourceList)
  (containers : list value) (result : core.ResourceList) : go.Result core.ResourceList :=
  match containers with
  | [] => go.Ok result
  | VMap container :: rest =>
      match containerFromUnstructured container with
      | go.Ok c => aggregateLoop fn aggregate rest (aggregate result (fn (Resources c)))
      | go.Err err => go.Err (go.Wrapped "failed to parse container" err)
      | go.Panic p => go.Panic p
      end
  | _ :: rest => aggregateLoop fn aggregate rest result
  end.

Definition AggregateContainerResources (obj : Object) (fn : selector)
  (aggregate : core.ResourceList -> core.ResourceList -> core.ResourceList)
  (fields : list string) : go.Result core.ResourceList :=
  match unstructured.NestedFieldNoCopy obj fields with
  | unstructured.NotFound => go.Ok None
  | unstructured.Failed err => go.Err err
  | unstructured.Found val =>
      match val with
      | VArr containers => aggregateLoop fn aggregate containers (Some ∅)
      | _ => go.Err (go.AccessorError fields val "[]interface{}")
      end
  end.

Definition ContainerResources (obj : Object) (fn : selector) (fields : list string)
  : go.Result core.ResourceList :=
  match unstructured.NestedFieldNoCopy obj fields with
  | unstructured.NotFound => go.Ok None
  | unstructured.Failed err => go.Err err
  | unstructured.Found val =>
      m ← assertMap val;
      match containerFromUnstructured m with
      | go.Ok container => go.Ok (fn (Resources container))
      | go.Err err => go.Err (go.Wrapped "failed to parse container" err)
      | go.Panic p => go.Panic p
      end
  end.

Definition StorageResources (obj : Object) (fn : selector) (fields : list string)
  : go.Result core.ResourceList :=
  match unstructured.NestedFieldNoCopy obj fields with
  | unstructured.NotFound => go.Ok None
  | unstructured.Failed err => go.Err err
  | unstructured.Found val =>
      m ← assertMap val;
      match storageFromUnstructured m with
      | go.Ok storage => go.Ok (fn (core.Resources storage))
      | go.Err err => go.Err (go.Wrapped "failed to parse storage" err)
      | go.Panic p => go.Panic p
      end
  end.

(** Returns the resource list and the replica count. *)
Definition AppNodeResources (obj : Object) (fn : selector) (fields : list string)
  : go.Result (core.ResourceList * Z) :=
  match unstructured.NestedFieldNoCopy obj fields with
  | unstructured.NotFound => go.Ok (None, 0)
  | unstructured.Failed err => go.Err err
  | unstructured.Found val =>
      m ← assertMap val;
      match appNodeFromUnstructured m with
      | go.Err err => go.Err (go.Wrapped "failed to parse node" err)
      | go.Panic p => go.Panic p
      | go.Ok node =>
          let replicas :=
            match Replicas_ node with
            | None => 1
            | Some n => n
            end in
          let rr := fn (ofst.Resources (ofst.Spec (PodTemplate node))) in
          let sr := fn (core.Resources (Storage node)) in
          rr ← go.mapassign rr core.ResourceStorage (core.Storage sr);
          go.Ok (rr, replicas)
      end
  end.

End Extraction.

End api.

(** ** Package [kubedb.com/v1alpha2]: the MongoDB and Redis calculators *)

Module v1alpha2.

Section Calculators.

(** The role and mode constants are declared outside the two files; only
    that the roles are distinct matters, and it does only where stated. *)
Context (DefaultPodRole ExporterPodRole TotalShardPodRole ShardPodRole
         PerShardPodRole ConfigServerPodRole MongosPodRole : api.PodRole).
Context (DBModeStandalone DBModeReplicaSet DBModeSharded DBModeCluster : string).

Context (DefaultUnstructuredConverter : runtime.UnstructuredConverter).

(** *** MongoDB *)

Definition MongoDB_roleReplicasFn (obj : api.Object) : go.Result api.ReplicaList :=
  match unstructured.NestedMap obj ["spec"; "shardTopology"] with
  | unstructured.Mistyped err => go.Err err
  | unstructured.Has shardTopology =>
      shards ← unstructured.orZero 0
                 (unstructured.NestedInt64 shardTopology ["shard"; "shards"]);
      shardReplicas ← unstructured.orZero 0
                 (unstructured.NestedInt64 shardTopology ["shard"; "replicas"]);
      configServerReplicas ← unstructured.orZero 0
                 (unstructured.NestedInt64 shardTopology ["configServer"; "replicas"]);
      mongosReplicas ← unstructured.orZero 0
                 (unstructured.NestedInt64 shardTopology ["mongos"; "replicas"]);
      go.Ok ({[ TotalShardPodRole := go.mul64 shards shardReplicas;
                ShardPodRole := shards;
                PerShardPodRole := shardReplicas;
                ConfigServerPodRole := configServerReplicas;
                MongosPodRole := mongosReplicas ]} : gmap string Z)
  | unstructured.Missing =>
      match unstructured.NestedInt64 obj ["spec"; "replicas"] with
      | unstructured.Mistyped err =>
          go.Err (go.Wrapped "failed to read spec.replicas" err)
      | unstructured.Missing => go.Ok ({[ DefaultPodRole := 1 ]} : gmap string Z)
      | unstructured.Has replicas => go.Ok ({[ DefaultPodRole := replicas ]} : gmap string Z)
      end
  end.

Definition MongoDB_modeFn (obj : api.Object) : go.Result string :=
  match unstructured.NestedMap obj ["spec"; "shardTopology"] with
  | unstructured.Mistyped err => go.Err err
  | unstructured.Has _ => go.Ok DBModeSharded
  | unstructured.Missing =>
      match unstructured.NestedMap obj ["spec"; "replicaSet"] with
      | unstructured.Mistyped err => go.Err err
      | unstructured.Has _ => go.Ok DBModeReplicaSet
      | unstructured.Missing => go.Ok DBModeStandalone
      end
  end.

Definition MongoDB_roleResourceFn (fn : core.ResourceRequirements -> core.ResourceList)
  (obj : api.Object) : go.Result api.RoleResourceList :=
  exporter ← api.ContainerResources DefaultUnstructuredConverter obj fn
               ["spec"; "monitor"; "prometheus"];
  match unstructured.NestedMap obj ["spec"; "shardTopology"] with
  | unstructured.Mistyped err => go.Err err
  | unstructured.Has shardTopology =>
      shards ← unstructured.orZero 0
                 (unstructured.NestedInt64 shardTopology ["shard"; "shards"]);
      '(shard, shardReplicas) ←
        api.AppNodeResources DefaultUnstructuredConverter shardTopology fn ["shard"];
      '(configServer, configServerReplicas) ←
        api.AppNodeResources DefaultUnstructuredConverter shardTopology fn ["configServer"];
      '(mongos, mongosReplicas) ←
        api.AppNodeResources DefaultUnstructuredConverter shardTopology fn ["mongos"];
      go.Ok ({[ TotalShardPodRole :=
                  api.MulResourceList shard (go.mul64 shards shardReplicas);
                ConfigServerPodRole :=
                  api.MulResourceList configServer configServerReplicas;
                MongosPodRole := api.MulResourceList mongos mongosReplicas;
                ExporterPodRole :=
                  api.MulResourceList exporter
                    (go.add64 (go.add64 (go.mul64 shards shardReplicas)
                                 configServerReplicas) mongosReplicas) ]}
             : gmap string core.ResourceList)
  | unstructured.Missing =>
      '(container, replicas) ←
        api.AppNodeResources DefaultUnstructuredConverter obj fn ["spec"];
      go.Ok ({[ DefaultPodRole := api.MulResourceList container replicas;
                ExporterPodRole := api.MulResourceList exporter replicas ]}
             : gmap string core.ResourceList)
  end.

Definition MongoDB_ResourceCalculator : api.ResourceCalculatorFuncs :=
  api.mkResourceCalculatorFuncs
    [DefaultPodRole; TotalShardPodRole; ConfigServerPodRole; MongosPodRole]
    [DefaultPodRole; TotalShardPodRole; ConfigServerPodRole; MongosPodRole;
     ExporterPodRole]
    MongoDB_roleReplicasFn
    (Some MongoDB_modeFn)
    (MongoDB_roleResourceFn api.ResourceLimits)
    (MongoDB_roleResourceFn api.ResourceRequests).

(** *** Redis *)

(** [found && mode == DBModeCluster] after [NestedString(obj, "spec", "mode")]. *)
Definition isCluster (mode : unstructured.Typed string) : bool :=
  match mode with
  | unstructured.Has mode => bool_decide (mode = DBModeCluster)
  | _ => false
  end.

Definition Redis_roleReplicasFn (obj : api.Object) : go.Result api.ReplicaList :=
  match unstructured.NestedString obj ["spec"; "mode"] with
  | unstructured.Mistyped err => go.Err err
  | mode =>
      if isCluster mode then
        shards ← unstructured.orZero 0
                   (unstructured.NestedInt64 obj ["spec"; "cluster"; "master"]);
        shardReplicas ← unstructured.orZero 0
                   (unstructured.NestedInt64 obj ["spec"; "cluster"; "replicas"]);
        go.Ok ({[ TotalShardPodRole := go.mul64 shards shardReplicas;
                  DefaultPodRole := go.mul64 shards shardReplicas;
                  ShardPodRole := shards;
                  PerShardPodRole := shardReplicas ]} : gmap string Z)
      else
        match unstructured.NestedInt64 obj ["spec"; "replicas"] with
        | unstructured.Mistyped err =>
            go.Err (go.Wrapped "failed to read spec.replicas" err)
        | unstructured.Missing => go.Ok ({[ DefaultPodRole := 1 ]} : gmap string Z)
        | unstructured.Has replicas =>
            go.Ok ({[ DefaultPodRole := replicas ]} : gmap string Z)
        end
  end.

Definition Redis_modeFn (obj : api.Object) : go.Result string :=
  match unstructured.NestedString obj ["spec"; "mode"] with
  | unstructured.Mistyped err => go.Err err
  | unstructured.Has mode => go.Ok mode
  | unstructured.Missing => go.Ok DBModeStandalone
  end.

Definition Redis_roleResourceFn (fn : core.ResourceRequirements -> core.ResourceList)
  (obj : api.Object) : go.Result api.RoleResourceList :=
  exporter ← api.ContainerResources DefaultUnstructuredConverter obj fn
               ["spec"; "monitor"; "prometheus"];
  '(container, replicas) ←
    api.AppNodeResources DefaultUnstructuredConverter obj fn ["spec"];
  match unstructured.NestedString obj ["spec"; "mode"] with
  | unstructured.Mistyped err => go.Err err
  | mode =>
      replicas ←
        (if isCluster mode then
           shards ← unstructured.orZero 0
                      (unstructured.NestedInt64 obj ["spec"; "cluster"; "master"]);
           shardReplicas ← unstructured.orZero 0
                      (unstructured.NestedInt64 obj ["spec"; "cluster"; "replicas"]);
           go.Ok (go.mul64 shards shardReplicas)
         else go.Ok replicas);
      go.Ok ({[ DefaultPodRole := api.MulResourceList container replicas;
                ExporterPodRole := api.MulResourceList exporter replicas ]}
             : gmap string core.ResourceList)
  end.

Definition Redis_ResourceCalculator : api.ResourceCalculatorFuncs :=
  api.mkResourceCalculatorFuncs
    [DefaultPodRole]
    [DefaultPodRole; ExporterPodRole]
    Redis_roleReplicasFn
    (Some Redis_modeFn)
    (Redis_roleResourceFn api.ResourceLimits)
    (Redis_roleResourceFn api.ResourceRequests).

End Calculators.

End v1alpha2.

(** ** A converter for worked examples

    [ParseQuantity] restricted to the plain forms [<digits><suffix>]: enough
    to run the calculator on documents such as [{cpu: "500m", memory: "1Gi"}].
    No foreign field is ever rejected. *)

Module fixture.

Definition isDigit (c : Ascii.ascii) : bool :=
  let n := Z.of_N (Ascii.N_of_ascii c) in (48 <=? n) && (n <=? 57).

Fixpoint digits (s : string) (acc : Z) : Z * string :=
  match s with
  | String c rest =>
      if isDigit c then digits rest (10 * acc + (Z.of_N (Ascii.N_of_ascii c) - 48))
      else (acc, s)
  | EmptyString => (acc, s)
  end.

(** The value of one unit of a suffix, in nano-units, and its format. *)
Definition suffix (s : string) : option (Z * resource.Format) :=
  if decide (s = "") then Some (10 ^ 9, resource.DecimalSI)
  else if decide (s = "n") then Some (1, resource.DecimalSI)
  else if decide (s = "u") then Some (10 ^ 3, resource.DecimalSI)
  else if decide (s = "m") then Some (10 ^ 6, resource.DecimalSI)
  else if decide (s = "k") then Some (10 ^ 12, resource.DecimalSI)
  else if decide (s = "M") then Some (10 ^ 15, resource.DecimalSI)
  else if decide (s = "G") then Some (10 ^ 18, resource.DecimalSI)
  else if decide (s = "Ki") then Some (2 ^ 10 * 10 ^ 9, resource.BinarySI)
  else if decide (s = "Mi") then Some (2 ^ 20 * 10 ^ 9, resource.BinarySI)
  else if decide (s = "Gi") then Some (2 ^ 30 * 10 ^ 9, resource.BinarySI)
  else None.

Definition parseQuantity (s : string) : option resource.Quantity :=
  match s with
  | EmptyString => None
  | String c _ =>
      if isDigit c then
        let '(n, rest) := digits s 0 in
        '(unit, f) ← suffix rest;
        Some (resource.mkQuantity (n * unit) f)
      else None
  end.

Definition quantityFromJSON (v : value) : option resource.Quantity :=
  match v with
  | VString s => parseQuantity s
  | VInt n => Some (resource.mkQuantity (n * 10 ^ 9) resource.DecimalSI)
  | _ => None
  end.

Definition converter : runtime.UnstructuredConverter :=
  runtime.mkUnstructuredConverter quantityFromJSON (fun _ _ => true).

(** [{"cpu": cpu, "memory": memory}] under [resources.limits] and
    [resources.requests]. *)
Definition resources (limits requests : gmap string value) : value :=
  VMap {[ "limits" := VMap limits; "requests" := VMap requests ]}.

(** A calculator in the shape of the database plugins: one app role scaled
    by the replica count of [spec], an exporter sidecar scaled the same way,
    and init containers read from [spec.init]. *)
Definition roleResourceFn (fn : core.ResourceRequirements -> core.ResourceList)
  (obj : api.Object) : go.Result api.RoleResourceList :=
  exporter ← api.ContainerResources converter obj fn ["spec"; "monitor"; "prometheus"];
  init ← api.AggregateContainerResources converter obj fn api.AddResourceList
           ["spec"; "init"; "initContainers"];
  '(container, replicas) ← api.AppNodeResources converter obj fn ["spec"];
  go.Ok ({[ "default" := api.MulResourceList container replicas;
            "exporter" := api.MulResourceList exporter replicas;
            "init" := init ]} : gmap string core.ResourceList).

Definition roleReplicasFn (obj : api.Object) : go.Result api.ReplicaList :=
  match unstructured.NestedFieldNoCopy obj ["spec"; "replicas"] with
  | unstructured.Found (VInt replicas) => go.Ok {[ "default" := replicas ]}
  | unstructured.Found val =>
      go.Err (go.AccessorError ["spec"; "replicas"] val "int64")
  | unstructured.NotFound => go.Ok {[ "default" := 1 ]}
  | unstructured.Failed err => go.Err err
  end.

Definition calculator : api.ResourceCalculatorFuncs :=
  api.mkResourceCalculatorFuncs
    ["default"] ["default"; "exporter"]
    roleReplicasFn None
    (roleResourceFn api.ResourceLimits) (roleResourceFn api.ResourceRequests).

(** Scenario B of the specification, with an exporter and init containers
    added: three replicas of [{cpu: 500m, memory: 1Gi}], 10Gi of storage. *)
Definition spec : gmap string value :=
  {[ "replicas" := VInt 3;
     "podTemplate" := VMap {[ "spec" := VMap {[
         "resources" :=
           resources {[ "cpu" := VString "500m"; "memory" := VString "1Gi";
                        "storage" := VString "1Gi" ]}
                     {[ "cpu" := VString "500m"; "memory" := VString "1Gi" ]} ]} ]};
     "storage" := VMap {[
         "resources" := resources {[ "storage" := VString "10Gi" ]}
                                  {[ "storage" := VString "10Gi" ]} ]};
     "monitor" := VMap {[ "prometheus" := VMap {[
         "resources" := resources {[ "cpu" := VString "50m" ]}
                                  {[ "cpu" := VString "50m" ]} ]} ]};
     "init" := VMap {[ "initContainers" := VArr [
         VString "not an object";
         VMap {[ "resources" := resources {[ "cpu" := VInt 2 ]} {[ "cpu" := VInt 2 ]} ]};
         VMap {[ "resources" := resources {[ "memory" := VString "64Mi" ]} ∅ ]} ] ]}
  ]}.

Definition workload : api.Object := {[ "spec" := VMap spec ]}.

(** A container with 250m of cpu limits, and one whose cpu limit is a
    boolean. *)
Definition containerLimits : gmap string value := {[ "cpu" := VString "250m" ]}.
Definition containerResources : gmap string value := {[ "limits" := VMap containerLimits ]}.
Definition containerDoc : gmap string value := {[ "resources" := VMap containerResources ]}.
Definition sidecar : api.Object := {[ "sidecar" := VMap containerDoc ]}.

Definition badLimits : gmap string value := {[ "cpu" := VBool true ]}.
Definition badResources : gmap string value := {[ "limits" := VMap badLimits ]}.
Definition badDoc : gmap string value := {[ "resources" := VMap badResources ]}.
Definition badSidecar : api.Object := {[ "sidecar" := VMap badDoc ]}.

(** The two database calculators, with role and mode names of our own. *)
Definition mongo : api.ResourceCalculatorFuncs :=
  v1alpha2.MongoDB_ResourceCalculator "default" "exporter" "total-shard" "shard"
    "per-shard" "config-server" "mongos" "Standalone" "ReplicaSet" "Sharded" converter.

Definition redis : api.ResourceCalculatorFuncs :=
  v1alpha2.Redis_ResourceCalculator "default" "exporter" "total-shard" "shard"
    "per-shard" "Standalone" "Cluster" converter.

(** A pod group of [replicas] pods with [cpu] of limits each. *)
Definition node (replicas : Z) (cpu : string) : value :=
  VMap {[ "replicas" := VInt replicas;
          "podTemplate" := VMap {[ "spec" := VMap {[
              "resources" := VMap {[ "limits" := VMap {[ "cpu" := VString cpu ]} ]} ]} ]} ]}.

(** Scenario C of the specification: two shards of three replicas, with
    three config servers and two mongos added. *)
Definition topology : gmap string value :=
  {[ "shard" := VMap {[ "shards" := VInt 2; "replicas" := VInt 3;
                        "podTemplate" := VMap {[ "spec" := VMap {[
                            "resources" := VMap {[ "limits" :=
                               VMap {[ "cpu" := VString "200m" ]} ]} ]} ]} ]};
     "configServer" := node 3 "100m";
     "mongos" := node 2 "100m" ]}.

Definition shardedSpec : gmap string value :=
  {[ "shardTopology" := VMap topology;
     "monitor" := VMap {[ "prometheus" := VMap {[
         "resources" := VMap {[ "limits" := VMap {[ "cpu" := VString "50m" ]} ]} ]} ]} ]}.

Definition sharded : api.Object := {[ "spec" := VMap shardedSpec ]}.

(** A MongoDB whose shard topology is null. *)
Definition nullTopology : api.Object :=
  {[ "spec" := VMap {[ "shardTopology" := VNull ]} ]}.

(** A Redis cluster of three masters with two replicas each. *)
Definition clusterSpec : gmap string value :=
  {[ "mode" := VString "Cluster";
     "cluster" := VMap {[ "master" := VInt 3; "replicas" := VInt 2 ]};
     "podTemplate" := VMap {[ "spec" := VMap {[
         "resources" := VMap {[ "limits" := VMap {[ "cpu" := VString "100m" ]} ]} ]} ]} ]}.

Definition cluster : api.Object := {[ "spec" := VMap clusterSpec ]}.

(** A calculator whose role resources are fixed: one cpu for the default
    role. *)
Definition fixedRoles : api.RoleResourceList :=
  {[ "default" := Some {[ "cpu" := resource.mkQuantity (10 ^ 9) resource.DecimalSI ]} ]}.

Definition fixedCalculator : api.ResourceCalculatorFuncs :=
  api.mkResourceCalculatorFuncs
    ["default"] ["default"; "exporter"]
    (fun _ => go.Ok ∅) None
    (fun _ => go.Ok fixedRoles) (fun _ => go.Ok fixedRoles).

(** A prometheus stanza that is a string, not an object. *)
Definition scalarMonitor : api.Object :=
  {[ "spec" := VMap {[ "monitor" := VMap {[ "prometheus" := VString "disabled" ]} ]} ]}.

(** An app node with no field at all. *)
Definition bareNode : api.Object := {[ "spec" := VMap ∅ ]}.

(** An app node with one cpu of limits and no storage claim. *)
Definition disklessSpec : gmap string value :=
  {[ "podTemplate" := VMap {[ "spec" := VMap {[
       "resources" := VMap {[ "limits" := VMap {[ "cpu" := VString "1" ]} ]} ]} ]} ]}.

Definition diskless : api.Object := {[ "spec" := VMap disklessSpec ]}.

Definition oneCPU : core.ResourceList :=
  Some {[ "cpu" := resource.mkQuantity (10 ^ 9) resource.DecimalSI ]}.

(** 2^62 milli-units of cpu: the milli-value is an int64, four times it is
    not. *)
Definition hugeCPU : core.ResourceList :=
  Some {[ "cpu" := resource.mkQuantity (2 ^ 62 * 10 ^ 6) resource.DecimalSI ]}.

(** An app node whose pod template declares 1Gi of storage under [limits]
    and whose storage claim declares 10Gi under [requests]. *)
Definition crossedPodTemplate : gmap string value :=
  {[ "spec" := VMap {[
       "resources" := VMap {[ "limits" := VMap {[ "storage" := VString "1Gi" ]} ]} ]} ]}.

Definition crossedClaim : gmap string value :=
  {[ "resources" := VMap {[ "requests" := VMap {[ "storage" := VString "10Gi" ]} ]} ]}.

Definition crossedSpec : gmap string value :=
  {[ "podTemplate" := VMap crossedPodTemplate; "storage" := VMap crossedClaim ]}.

Definition crossed : api.Object := {[ "spec" := VMap crossedSpec ]}.

End fixture.

(** * Properties

    ** Reading a resource list as numbers *)

(** The number a list holds for a resource kind, in nano-units: an absent
    kind (and any kind of a nil list) counts as zero. *)
Definition amount (rl : core.ResourceList) (name : string) : Z :=
  match go.mapaccess rl name with
  | Some q => resource.nanos q
  | None => 0
  end.

(** The three kinds the arithmetic reads. *)
Definition kinds : list string :=
  [core.ResourceCPU; core.ResourceMemory; core.ResourceStorage].

(** No key is mapped to a zero quantity. *)
Definition NoExplicitZero (rl : core.ResourceList) : Prop :=
  forall name q, go.mapaccess rl name = Some q -> resource.IsZero q = false.

(** Every key is one of the three kinds. *)
Definition OnlyKinds (rl : core.ResourceList) : Prop :=
  forall name, name ∉ kinds -> go.mapaccess rl name = None.

Definition sumZ (l : list Z) : Z := foldr Z.add 0 l.

(** The list of a role in a role resource map, nil when the role is absent. *)
Definition roleList (rr : api.RoleResourceList) (role : api.PodRole) : core.ResourceList :=
  default None (rr !! role).

(** The sum over [roles] of what [rr] holds for [name]. *)
Definition roleSum (rr : api.RoleResourceList) (roles : list api.PodRole) (name : string) : Z :=
  sumZ ((fun role => amount (roleList rr role) name) <$> roles).

(** The sum over [roles] of the replica counts, absent roles counting zero. *)
Definition replicaSum (replicas : api.ReplicaList) (roles : list api.PodRole) : Z :=
  sumZ ((fun role => default 0 (replicas !! role)) <$> roles).

(** The shape every result of the arithmetic has: up to three entries, each
    stored unless zero. *)
Definition store (name : string) (q : resource.Quantity)
  (result : gmap string resource.Quantity) : gmap string resource.Quantity :=
  if negb (resource.IsZero q) then <[name := q]> result else result.

Definition store3 (cpu memory storage : resource.Quantity) : core.ResourceList :=
  Some (store core.ResourceStorage storage
          (store core.ResourceMemory memory (store core.ResourceCPU cpu ∅))).

(** The totals [ResourceListForRoles] accumulates in its loop. *)
Definition roleTotals (rr : api.RoleResourceList) (roles : list api.PodRole)
  (start : resource.Quantity * resource.Quantity * resource.Quantity)
  : resource.Quantity * resource.Quantity * resource.Quantity :=
  fold_left
    (fun '(cpu, memory, storage) role =>
       let rl : core.ResourceList := default None (rr !! role) in
       (resource.Add cpu (core.Cpu rl),
        resource.Add memory (core.Memory rl),
        resource.Add storage (core.Storage rl)))
    roles start.

(** The quantity [MaxResourceList] keeps for one kind. *)
Definition greater (xq yq : resource.Quantity) : resource.Quantity :=
  if 0 <=? resource.Cmp xq yq then xq else yq.

(** A list cut down to the three kinds, zero entries dropped. *)
Definition normalize (x : core.ResourceList) : core.ResourceList :=
  store3 (core.Cpu x) (core.Memory x) (core.Storage x).

(** The milli-value of every kind of [x], and its product with [n], fit in
    an int64. *)
Definition milliFits (x : core.ResourceList) (n : Z) : Prop :=
  forall name, name ∈ kinds ->
    go.fits_int64 (resource.div_away (amount x name) (10 ^ 6)) = true /\
    go.fits_int64 (resource.div_away (amount x name) (10 ^ 6) * n) = true.

(** Every kind of [x] is a whole number of milli-units. *)
Definition wholeMilli (x : core.ResourceList) : Prop :=
  forall name, name ∈ kinds -> exists k, amount x name = k * 10 ^ 6.

(** The default format of a kind: [Cpu()] reads with [DecimalSI], [Memory()]
    and [Storage()] with [BinarySI]. *)
Definition kindFormat (name : string) : resource.Format :=
  if decide (name = core.ResourceCPU) then resource.DecimalSI else resource.BinarySI.

(** ** Reading the extraction functions *)

(** The object-shaped entries of an array, in order. *)
Definition objects (containers : list value) : list (gmap string value) :=
  omap (fun v => match v with VMap m => Some m | _ => None end) containers.

(** [aggregate] folded over the selected lists of decoded containers, from
    the empty list. *)
Definition aggregated (fn : core.ResourceRequirements -> core.ResourceList)
  (aggregate : core.ResourceList -> core.ResourceList -> core.ResourceList)
  (cs : list api.Container) : core.ResourceList :=
  fold_left (fun result c => aggregate result (fn (api.Resources c))) cs (Some ∅).

(** The sub-document [sub] declares the quantity [q] at [path]: the path
    leads to a value that the converter reads as [q]. *)
Definition declares (conv : runtime.UnstructuredConverter) (sub : gmap string value)
  (path : list string) (q : resource.Quantity) : Prop :=
  exists v, unstructured.NestedFieldNoCopy sub path = unstructured.Found v /\
            runtime.quantityFromUnstructured conv v = Some q.

(** The two selectors of the package, by the JSON field they select. *)
Definition selects (field : string) (fn : core.ResourceRequirements -> core.ResourceList)
  : Prop :=
  (field = "limits"%string /\ fn = api.ResourceLimits) \/
  (field = "requests"%string /\ fn = api.ResourceRequests).

Definition isMap (v : value) : bool :=
  match v with VMap _ => true | _ => false end.

Definition isArr (v : value) : bool :=
  match v with VArr _ => true | _ => false end.

(** ** int64 arithmetic *)

(** ** Further notions *)

(** Two quantities that [store] cannot tell apart: the same number and,
    unless it is zero, the same format. *)
Definition sameStored (q q' : resource.Quantity) : Prop :=
  resource.nanos q = resource.nanos q' /\
  (resource.nanos q <> 0 -> resource.fmt q = resource.fmt q').

(** A list that has none of the three kinds: nil, empty, or foreign keys
    only. *)
Definition noKinds (y : core.ResourceList) : Prop :=
  forall name, name ∈ kinds -> go.mapaccess y name = None.

(** No kind of the list is negative. *)
Definition nonNegative (x : core.ResourceList) : Prop :=
  forall name, name ∈ kinds -> 0 <= amount x name.

(** [NestedFieldNoCopy] below a prefix: the error message of a failure
    names the whole path. *)
Definition underPrefix (prefix : list string) (r : unstructured.Nested)
  : unstructured.Nested :=
  match r with
  | unstructured.Failed (go.AccessorError path v expected) =>
      unstructured.Failed (go.AccessorError (prefix ++ path) v expected)
  | _ => r
  end.

(** A call made on a sub-document instead of the document: an accessor
    error names the path from the document. *)
Definition belowPrefix {A} (prefix : list string) (r : go.Result A) : go.Result A :=
  match r with
  | go.Err (go.AccessorError path v expected) =>
      go.Err (go.AccessorError (prefix ++ path) v expected)
  | _ => r
  end.

(** What a calculator makes of [spec.replicas] outside the sharded modes:
    the int64 if there is one, one if the field is absent, the wrapped
    accessor error otherwise. *)
Definition plainReplicas (obj : gmap string value) : go.Result Z :=
  match unstructured.NestedInt64 obj ["spec"; "replicas"] with
  | unstructured.Has replicas => go.Ok (go.wrap64 replicas)
  | unstructured.Missing => go.Ok 1
  | unstructured.Mistyped err => go.Err (go.Wrapped "failed to read spec.replicas" err)
  end.

(** The call returned what the field [field] of the [resources] object [r]
    says: the nil list if the field is missing, else a list with exactly the
    keys of the field, each with the quantity the converter reads. *)
Definition readsField (conv : runtime.UnstructuredConverter) (r : gmap string value)
  (field : string) (result : go.Result core.ResourceList) : Prop :=
  (r !! field = None -> result = go.Ok None) /\
  (forall l, r !! field = Some (VMap l) ->
     exists g, result = go.Ok (Some g) /\
       (forall name, g !! name = l !! name ≫= runtime.quantityFromUnstructured conv) /\
       (forall name, is_Some (g !! name) <-> is_Some (l !! name))).

Lemma isOk_Ok {A} (r : go.Result A) : go.isOk r = true -> exists a, r = go.Ok a.
Proof. destruct r; [eauto | done | done]. Qed.

Section Int64.

Lemma fits_int64_spec z : go.fits_int64 z = true <-> - 2 ^ 63 <= z <= 2 ^ 63 - 1.
Proof.
  unfold go.fits_int64, go.min_int64, go.max_int64.
  rewrite andb_true_iff, !Z.leb_le. reflexivity.
Qed.

Lemma wrap64_fits z : go.fits_int64 z = true -> go.wrap64 z = z.
Proof.
  rewrite fits_int64_spec. intros Hz. unfold go.wrap64.
  rewrite Z.mod_small; lia.
Qed.

Lemma wrap64_add_l a b : go.wrap64 (go.wrap64 a + b) = go.wrap64 (a + b).
Proof.
  unfold go.wrap64. f_equal.
  replace ((a + 2 ^ 63) mod 2 ^ 64 - 2 ^ 63 + b + 2 ^ 63)
    with ((a + 2 ^ 63) mod 2 ^ 64 + b) by lia.
  rewrite Zplus_mod_idemp_l. f_equal. lia.
Qed.


Lemma div_away_exact a d : 0 < d -> resource.div_away (a * d) d = a.
Proof.
  intros Hd. unfold resource.div_away.
  rewrite Z.rem_mul by lia. rewrite Z.eqb_refl. apply Z.quot_mul. lia.
Qed.

End Int64.

(** ** The arithmetic on resource lists *)

Section Arithmetic.

Implicit Types (x y rl : core.ResourceList) (q : resource.Quantity).

Lemma Name_nanos rl name f : resource.nanos (core.Name rl name f) = amount rl name.
Proof. unfold core.Name, amount. by destruct (go.mapaccess rl name). Qed.

Lemma IsZero_nanos q : resource.IsZero q = true <-> resource.nanos q = 0.
Proof. unfold resource.IsZero. apply Z.eqb_eq. Qed.


Lemma elem_of_kinds name :
  name ∈ kinds <->
  name = core.ResourceCPU \/ name = core.ResourceMemory \/ name = core.ResourceStorage.
Proof. unfold kinds. rewrite !elem_of_cons, elem_of_nil. tauto. Qed.

Lemma lookup_store name q result name' :
  store name q result !! name' =
  if decide (name = name') then (if resource.IsZero q then result !! name' else Some q)
  else result !! name'.
Proof.
  unfold store. destruct (resource.IsZero q); simpl.
  - by destruct (decide (name = name')).
  - rewrite lookup_insert. by destruct (decide (name = name')).
Qed.

Lemma store3_amount cpu memory storage :
  amount (store3 cpu memory storage) core.ResourceCPU = resource.nanos cpu /\
  amount (store3 cpu memory storage) core.ResourceMemory = resource.nanos memory /\
  amount (store3 cpu memory storage) core.ResourceStorage = resource.nanos storage.
Proof.
  unfold amount, store3; simpl. rewrite !lookup_store, !lookup_empty.
  repeat (case_decide; try done).
  repeat split.
  - destruct (resource.IsZero cpu) eqn:E; [symmetry; by apply IsZero_nanos | done].
  - destruct (resource.IsZero memory) eqn:E; [symmetry; by apply IsZero_nanos | done].
  - destruct (resource.IsZero storage) eqn:E; [symmetry; by apply IsZero_nanos | done].
Qed.

Lemma store3_NoExplicitZero cpu memory storage :
  NoExplicitZero (store3 cpu memory storage).
Proof.
  intros name q. unfold store3; simpl. rewrite !lookup_store, lookup_empty.
  repeat case_decide;
    destruct (resource.IsZero cpu) eqn:?, (resource.IsZero memory) eqn:?,
      (resource.IsZero storage) eqn:?; intros; simplify_eq; done.
Qed.

Lemma store3_OnlyKinds cpu memory storage : OnlyKinds (store3 cpu memory storage).
Proof.
  intros name Hname. rewrite elem_of_kinds in Hname.
  unfold store3; simpl. rewrite !lookup_store, lookup_empty.
  repeat case_decide; try done; subst; tauto.
Qed.

Lemma ResourceListForRoles_store3 rr roles :
  exists cpu memory storage,
    roleTotals rr roles
      (resource.zero resource.DecimalSI, resource.zero resource.BinarySI,
       resource.zero resource.BinarySI) = (cpu, memory, storage) /\
    api.ResourceListForRoles rr roles = store3 cpu memory storage.
Proof.
  unfold api.ResourceListForRoles.
  fold (roleTotals rr roles
          (resource.zero resource.DecimalSI, resource.zero resource.BinarySI,
           resource.zero resource.BinarySI)).
  destruct (roleTotals _ _ _) as [[cpu memory] storage].
  by exists cpu, memory, storage.
Qed.

Lemma roleSum_nil rr name : roleSum rr [] name = 0.
Proof. reflexivity. Qed.

Lemma roleSum_cons rr role roles name :
  roleSum rr (role :: roles) name = amount (roleList rr role) name + roleSum rr roles name.
Proof. reflexivity. Qed.

Lemma roleTotals_nanos rr roles cpu0 memory0 storage0 cpu memory storage :
  roleTotals rr roles (cpu0, memory0, storage0) = (cpu, memory, storage) ->
  resource.nanos cpu = resource.nanos cpu0 + roleSum rr roles core.ResourceCPU /\
  resource.nanos memory = resource.nanos memory0 + roleSum rr roles core.ResourceMemory /\
  resource.nanos storage = resource.nanos storage0 + roleSum rr roles core.ResourceStorage.
Proof.
  revert cpu0 memory0 storage0.
  induction roles as [|role roles IH]; intros cpu0 memory0 storage0 Hfold.
  - simpl in Hfold. simplify_eq. rewrite !roleSum_nil. lia.
  - simpl in Hfold. apply IH in Hfold as (Hc & Hm & Hs).
    rewrite !roleSum_cons.
    unfold core.Cpu, core.Memory, core.Storage in *. simpl in *.
    rewrite !Name_nanos in *. fold (roleList rr role) in *. lia.
Qed.

Lemma ResourceListForRoles_amount rr roles name :
  name ∈ kinds -> amount (api.ResourceListForRoles rr roles) name = roleSum rr roles name.
Proof.
  intros Hname.
  destruct (ResourceListForRoles_store3 rr roles) as (cpu & memory & storage & Ht & ->).
  apply roleTotals_nanos in Ht as (Hc & Hm & Hs); simpl in *.
  destruct (store3_amount cpu memory storage) as (Ac & Am & As).
  apply elem_of_kinds in Hname as [-> | [-> | ->]]; lia.
Qed.

Lemma AddResourceList_store3 x y :
  api.AddResourceList x y =
  store3
    (resource.Add (resource.Add (resource.zero resource.DecimalSI) (core.Cpu x)) (core.Cpu y))
    (resource.Add (resource.Add (resource.zero resource.BinarySI) (core.Memory x))
       (core.Memory y))
    (resource.Add (resource.Add (resource.zero resource.BinarySI) (core.Storage x))
       (core.Storage y)).
Proof. reflexivity. Qed.

Lemma AddResourceList_amount x y name :
  name ∈ kinds -> amount (api.AddResourceList x y) name = amount x name + amount y name.
Proof.
  intros Hname. rewrite AddResourceList_store3.
  match goal with |- amount (store3 ?c ?m ?s) _ = _ =>
    destruct (store3_amount c m s) as (Ac & Am & As) end.
  unfold core.Cpu, core.Memory, core.Storage in *. simpl in *.
  rewrite !Name_nanos in *.
  apply elem_of_kinds in Hname as [-> | [-> | ->]]; lia.
Qed.

Lemma greater_nanos xq yq :
  resource.nanos (greater xq yq) = Z.max (resource.nanos xq) (resource.nanos yq).
Proof.
  unfold greater, resource.Cmp.
  destruct (Z.compare_spec (resource.nanos xq) (resource.nanos yq)); simpl; lia.
Qed.

Lemma MaxResourceList_store3 x y :
  api.MaxResourceList x y =
  store3 (greater (core.Cpu x) (core.Cpu y)) (greater (core.Memory x) (core.Memory y))
    (greater (core.Storage x) (core.Storage y)).
Proof. reflexivity. Qed.

Lemma MaxResourceList_amount x y name :
  name ∈ kinds ->
  amount (api.MaxResourceList x y) name = Z.max (amount x name) (amount y name).
Proof.
  intros Hname. rewrite MaxResourceList_store3.
  match goal with |- amount (store3 ?c ?m ?s) _ = _ =>
    destruct (store3_amount c m s) as (Ac & Am & As) end.
  rewrite !greater_nanos in *.
  unfold core.Cpu, core.Memory, core.Storage in *.
  rewrite !Name_nanos in *.
  apply elem_of_kinds in Hname as [-> | [-> | ->]]; lia.
Qed.

End Arithmetic.

Section Multiply.

Implicit Types (x : core.ResourceList) (q : resource.Quantity).

Lemma lookup_mulEntry name q n result name' :
  api.mulEntry name q n result !! name' =
  if decide (name = name') then
    if resource.IsZero q then result !! name'
    else Some (resource.mkQuantity
                 (go.mul64 (resource.MilliValue q) n * 10 ^ 6) (resource.fmt q))
  else result !! name'.
Proof.
  unfold api.mulEntry. destruct (resource.IsZero q); simpl.
  - by destruct (decide (name = name')).
  - rewrite lookup_insert. by destruct (decide (name = name')).
Qed.

(** What [MulResourceList] holds for a kind: nothing when [x] has none of
    it, else the wrapped product, whatever it is. *)
Lemma MulResourceList_lookup x n name :
  name ∈ kinds ->
  go.mapaccess (api.MulResourceList x n) name =
  if amount x name =? 0 then None
  else
    let q := core.Name x name (kindFormat name) in
    Some (resource.mkQuantity (go.mul64 (resource.MilliValue q) n * 10 ^ 6) (resource.fmt q)).
Proof.
  intros Hname. unfold api.MulResourceList; simpl.
  rewrite !lookup_mulEntry, lookup_empty.
  unfold resource.IsZero, core.Cpu, core.Memory, core.Storage, kindFormat.
  rewrite !Name_nanos.
  apply elem_of_kinds in Hname as [-> | [-> | ->]];
    repeat (case_decide; try done);
    by destruct (amount x _ =? 0).
Qed.


Lemma MilliValue_fits q :
  go.fits_int64 (resource.div_away (resource.nanos q) (10 ^ 6)) = true ->
  resource.MilliValue q = resource.div_away (resource.nanos q) (10 ^ 6).
Proof. unfold resource.MilliValue. by intros ->. Qed.


(** Multiplying by one gives the list back, cut down to the three kinds and
    without its zero entries, as long as the quantities are whole
    milli-units in the int64 range. *)
Lemma MulResourceList_by_one x :
  wholeMilli x -> milliFits x 1 -> api.MulResourceList x 1 = normalize x.
Proof.
  intros Hwhole Hfits. unfold normalize, store3, api.MulResourceList. f_equal.
  apply map_eq. intros name.
  rewrite !lookup_mulEntry, !lookup_store, lookup_empty.
  assert (Hone : forall name' f, name' ∈ kinds ->
    resource.mkQuantity
      (go.mul64 (resource.MilliValue (core.Name x name' f)) 1 * 10 ^ 6)
      (resource.fmt (core.Name x name' f)) = core.Name x name' f).
  { intros name' f Hname'.
    destruct (Hwhole name' Hname') as [k Hk]. destruct (Hfits name' Hname') as [Hm _].
    rewrite Hk, div_away_exact in Hm by lia.
    rewrite MilliValue_fits; rewrite Name_nanos, Hk, div_away_exact by lia; [| done].
    unfold go.mul64. rewrite Z.mul_1_r, wrap64_fits by done.
    destruct (core.Name x name' f) as [a fm] eqn:En; simpl.
    f_equal. rewrite <- Hk, <- (Name_nanos x name' f), En. done. }
  unfold core.Cpu, core.Memory, core.Storage.
  rewrite !Hone by (apply elem_of_kinds; tauto). done.
Qed.

Lemma MulResourceList_by_zero x name :
  name ∈ kinds -> amount x name <> 0 ->
  exists q, go.mapaccess (api.MulResourceList x 0) name = Some q /\
            resource.IsZero q = true.
Proof.
  intros Hname Hx. rewrite MulResourceList_lookup by done.
  apply Z.eqb_neq in Hx. rewrite Hx. eexists. split; [done |].
  unfold resource.IsZero, go.mul64; simpl. by rewrite Z.mul_0_r.
Qed.

End Multiply.

(** ** The default adapter *)

Section AdapterProperties.

Context (InitPodRole : api.PodRole) (c : api.ResourceCalculatorFuncs).

(** The loop of [Replicas] from any starting count. *)
Lemma Replicas_loop (replicas : api.ReplicaList) roles a :
  fold_left (fun cnt role => go.add64 cnt (default 0 (replicas !! role))) roles
    (go.wrap64 a)
  = go.wrap64 (a + replicaSum replicas roles).
Proof.
  assert (Hcons : forall role roles',
    replicaSum replicas (role :: roles') =
    default 0 (replicas !! role) + replicaSum replicas roles') by reflexivity.
  revert a. induction roles as [|role roles IH]; intros a; simpl.
  - f_equal. change (replicaSum replicas []) with 0. lia.
  - unfold go.add64. rewrite wrap64_add_l, IH, Hcons. f_equal. lia.
Qed.

(** What the two-phase maximum is, for a role resource map [rr]. *)
Lemma phase_max (rr : api.RoleResourceList) runtime :
  let total :=
    api.MaxResourceList (api.ResourceListForRoles rr runtime)
      (api.ResourceListForRoles rr [InitPodRole]) in
  (forall name, name ∈ kinds ->
     amount total name =
     Z.max (roleSum rr runtime name) (amount (roleList rr InitPodRole) name)) /\
  NoExplicitZero total /\ OnlyKinds total.
Proof.
  intros total. subst total. split; [| split].
  - intros name Hname.
    rewrite MaxResourceList_amount, !ResourceListForRoles_amount by done.
    rewrite roleSum_cons, roleSum_nil. f_equal. lia.
  - rewrite MaxResourceList_store3. apply store3_NoExplicitZero.
  - rewrite MaxResourceList_store3. apply store3_OnlyKinds.
Qed.

End AdapterProperties.

(** C2.  Whenever the role resource map [rr] is produced without error,
    [TotalResourceLimits] (and likewise [TotalResourceRequests]) returns a
    list that holds, for each of cpu, memory and storage, the greater of the
    sum of [rr] over the runtime roles and what [rr] holds for the init role;
    the list has no other key and no zero entry, so it is that element-wise
    maximum. *)
Theorem TotalResource_max_of_runtime_and_init
  (InitPodRole : api.PodRole) (c : api.ResourceCalculatorFuncs) (obj : api.Object) :
  (forall rr, api.RoleResourceLimits c obj = go.Ok rr ->
     exists total,
       api.TotalResourceLimits InitPodRole c obj = go.Ok total /\
       (forall name, name ∈ kinds ->
          amount total name =
          Z.max (roleSum rr (api.RuntimeRoles c) name)
                (roleSum rr [InitPodRole] name)) /\
       NoExplicitZero total /\ OnlyKinds total) /\
  (forall rr, api.RoleResourceRequests c obj = go.Ok rr ->
     exists total,
       api.TotalResourceRequests InitPodRole c obj = go.Ok total /\
       (forall name, name ∈ kinds ->
          amount total name =
          Z.max (roleSum rr (api.RuntimeRoles c) name)
                (roleSum rr [InitPodRole] name)) /\
       NoExplicitZero total /\ OnlyKinds total).
Proof.
  split; intros rr Hrr; eexists.
  - unfold api.TotalResourceLimits. rewrite Hrr. split; [reflexivity |].
    destruct (phase_max InitPodRole rr (api.RuntimeRoles c)) as (Hmax & Hnz & Hk).
    repeat split; try done.
    intros name Hname. rewrite Hmax, roleSum_cons, roleSum_nil by done. f_equal. lia.
  - unfold api.TotalResourceRequests. rewrite Hrr. split; [reflexivity |].
    destruct (phase_max InitPodRole rr (api.RuntimeRoles c)) as (Hmax & Hnz & Hk).
    repeat split; try done.
    intros name Hname. rewrite Hmax, roleSum_cons, roleSum_nil by done. f_equal. lia.
Qed.

(** On the fixture workload the theorem gives the total of the limits as
    the maximum of the two phases. *)
Lemma TotalResource_max_of_runtime_and_init_witness :
  exists rr total,
    api.RoleResourceLimits fixture.calculator fixture.workload = go.Ok rr /\
    api.TotalResourceLimits "init" fixture.calculator fixture.workload = go.Ok total /\
    amount total core.ResourceCPU =
    Z.max (roleSum rr ["default"; "exporter"] core.ResourceCPU)
          (roleSum rr ["init"] core.ResourceCPU).
Proof.
  destruct (isOk_Ok (api.RoleResourceLimits fixture.calculator fixture.workload))
    as [rr Hrr]; [vm_compute; reflexivity |].
  destruct (TotalResource_max_of_runtime_and_init "init" fixture.calculator
              fixture.workload) as [Hlimits _].
  destruct (Hlimits rr Hrr) as (total & Htotal & Hmax & _).
  exists rr, total. split; [exact Hrr |]. split; [exact Htotal |].
  apply Hmax, elem_of_kinds. tauto.
Defined.

(** The numbers of that workload: the init containers ask for 2 cpu, more
    than the 1650m of the three replicas and their exporters, but for less
    memory than the 3Gi of the replicas. *)
Example TotalResourceLimits_workload :
  (total ← api.TotalResourceLimits "init" fixture.calculator fixture.workload;
   go.Ok (amount total <$> kinds))
  = go.Ok [2 * 10 ^ 9; 3 * 2 ^ 30 * 10 ^ 9; 30 * 2 ^ 30 * 10 ^ 9].
Proof. vm_compute. reflexivity. Qed.

(** C7.  Whenever [RoleReplicas] succeeds with the replica map [replicas],
    [Replicas] returns the int64 sum of the counts of the app roles, each
    role as often as [AppRoles] lists it and an absent role counting zero;
    no other role is read.  The int64 sum is the sum itself when that fits
    in 64 bits. *)
Theorem Replicas_sums_app_roles
  (c : api.ResourceCalculatorFuncs) (obj : api.Object) (replicas : api.ReplicaList) :
  api.RoleReplicas c obj = go.Ok replicas ->
  api.Replicas c obj = go.Ok (go.wrap64 (replicaSum replicas (api.AppRoles c))) /\
  (go.fits_int64 (replicaSum replicas (api.AppRoles c)) = true ->
   api.Replicas c obj = go.Ok (replicaSum replicas (api.AppRoles c))).
Proof.
  intros Hrr.
  assert (Hsum : api.Replicas c obj =
                 go.Ok (go.wrap64 (replicaSum replicas (api.AppRoles c)))).
  { pose proof (Replicas_loop replicas (api.AppRoles c) 0) as Hloop.
    change (go.wrap64 0) with 0 in Hloop.
    unfold api.Replicas. rewrite Hrr. simpl. by rewrite Hloop. }
  split; [done |]. intros Hfits. by rewrite Hsum, wrap64_fits.
Qed.

Lemma Replicas_sums_app_roles_witness :
  api.Replicas fixture.calculator fixture.workload = go.Ok 3.
Proof.
  destruct (Replicas_sums_app_roles fixture.calculator fixture.workload
              {[ "default" := 3 ]}) as [_ Hexact].
  - vm_compute. reflexivity.
  - apply Hexact. vm_compute. reflexivity.
Defined.

(** C10.  [AddResourceList], [MaxResourceList] and [ResourceListForRoles]
    read cpu, memory and storage only: whatever the inputs hold, a key that
    is none of the three is absent from the result. *)
Theorem arithmetic_keeps_three_kinds
  (x y : core.ResourceList) (rr : api.RoleResourceList) (roles : list api.PodRole)
  (name : string) :
  name ∉ kinds ->
  go.mapaccess (api.AddResourceList x y) name = None /\
  go.mapaccess (api.MaxResourceList x y) name = None /\
  go.mapaccess (api.ResourceListForRoles rr roles) name = None.
Proof.
  intros Hname. split; [| split].
  - rewrite AddResourceList_store3. by apply store3_OnlyKinds.
  - rewrite MaxResourceList_store3. by apply store3_OnlyKinds.
  - destruct (ResourceListForRoles_store3 rr roles) as (cpu & memory & storage & _ & ->).
    by apply store3_OnlyKinds.
Qed.

(** ** Extraction from the document *)

Section ExtractionProperties.

Context (conv : runtime.UnstructuredConverter).

Implicit Types (obj m : gmap string value) (fields : list string).
Implicit Types (fn : core.ResourceRequirements -> core.ResourceList).

Lemma bind_Ok {A B} (r : go.Result A) (k : A -> go.Result B) b :
  (r ≫= k) = go.Ok b -> exists a, r = go.Ok a /\ k a = go.Ok b.
Proof. destruct r; simpl; [eauto | done | done]. Qed.

Lemma NestedFieldNoCopy_missing obj field rest :
  obj !! field = None ->
  unstructured.NestedFieldNoCopy obj (field :: rest) = unstructured.NotFound.
Proof. intros H. unfold unstructured.NestedFieldNoCopy; simpl. by rewrite H. Qed.

Lemma NestedFieldNoCopy_step obj field rest v :
  obj !! field = Some v ->
  unstructured.NestedFieldNoCopy obj (field :: rest) =
  unstructured.walk v [field] rest.
Proof. intros H. unfold unstructured.NestedFieldNoCopy; simpl. by rewrite H. Qed.

(** The outcome of [walk] does not depend on the path already seen, except
    inside an error message. *)
Lemma walk_Found v seen seen' fields w :
  unstructured.walk v seen fields = unstructured.Found w ->
  unstructured.walk v seen' fields = unstructured.Found w.
Proof.
  revert v seen seen'. induction fields as [|field rest IH]; intros v seen seen'; simpl.
  - done.
  - destruct v; try done. destruct (m !! field); [| done]. apply IH.
Qed.

(** A path into an object: its head names a field and the rest leads on
    from there. *)
Lemma NestedFieldNoCopy_cons_Found obj field rest w :
  unstructured.NestedFieldNoCopy obj (field :: rest) = unstructured.Found w ->
  exists v, obj !! field = Some v /\
    match rest with
    | [] => v = w
    | _ => exists m', v = VMap m' /\
             unstructured.NestedFieldNoCopy m' rest = unstructured.Found w
    end.
Proof.
  unfold unstructured.NestedFieldNoCopy; simpl.
  destruct (obj !! field) as [v|]; [| done]. intros Hw. exists v. split; [done |].
  destruct rest as [|field' rest].
  - simpl in Hw. by simplify_eq.
  - destruct v; try done. exists m. split; [done |].
    by apply walk_Found with (seen := [field]).
Qed.

(** *** The decoders, field by field *)

Lemma resourceListFromUnstructured_lookup lm rl :
  runtime.resourceListFromUnstructured conv (Some (VMap lm)) = go.Ok rl ->
  exists g, rl = Some g /\
    forall name, g !! name = lm !! name ≫= runtime.quantityFromUnstructured conv.
Proof.
  unfold runtime.resourceListFromUnstructured.
  case_bool_decide as Hall; [| done]. intros Hrl. simplify_eq.
  eexists. split; [done |]. intros name.
  rewrite lookup_omap, lookup_fmap.
  by destruct (lm !! name).
Qed.

Lemma resourceRequirementsFromUnstructured_fields m rr :
  runtime.resourceRequirementsFromUnstructured conv (Some (VMap m)) = go.Ok rr ->
  runtime.resourceListFromUnstructured conv (m !! "limits") = go.Ok (core.Limits rr) /\
  runtime.resourceListFromUnstructured conv (m !! "requests") = go.Ok (core.Requests rr).
Proof.
  unfold runtime.resourceRequirementsFromUnstructured.
  intros (limits & -> & (requests & -> & H)%bind_Ok)%bind_Ok.
  destruct (runtime.otherFieldsConvert _ _ _); by simplify_eq.
Qed.

Lemma persistentVolumeClaimSpecFromUnstructured_fields m pvc :
  runtime.persistentVolumeClaimSpecFromUnstructured conv (Some (VMap m)) = go.Ok pvc ->
  runtime.resourceRequirementsFromUnstructured conv (m !! "resources") =
  go.Ok (core.Resources pvc).
Proof.
  unfold runtime.persistentVolumeClaimSpecFromUnstructured.
  intros (resources & -> & H)%bind_Ok.
  destruct (runtime.otherFieldsConvert _ _ _); by simplify_eq.
Qed.

Lemma podSpecFromUnstructured_fields m spec :
  runtime.podSpecFromUnstructured conv (Some (VMap m)) = go.Ok spec ->
  runtime.resourceRequirementsFromUnstructured conv (m !! "resources") =
  go.Ok (ofst.Resources spec).
Proof.
  unfold runtime.podSpecFromUnstructured.
  intros (resources & -> & H)%bind_Ok.
  destruct (runtime.otherFieldsConvert _ _ _); by simplify_eq.
Qed.

Lemma podTemplateSpecFromUnstructured_fields m pt :
  runtime.podTemplateSpecFromUnstructured conv (Some (VMap m)) = go.Ok pt ->
  runtime.podSpecFromUnstructured conv (m !! "spec") = go.Ok (ofst.Spec pt).
Proof.
  unfold runtime.podTemplateSpecFromUnstructured.
  intros (spec & -> & H)%bind_Ok.
  destruct (runtime.otherFieldsConvert _ _ _); by simplify_eq.
Qed.

Lemma appNodeFromUnstructured_fields m node :
  api.appNodeFromUnstructured conv m = go.Ok node ->
  runtime.int64PtrFromUnstructured (m !! "replicas") = go.Ok (api.Replicas_ node) /\
  runtime.podTemplateSpecFromUnstructured conv (m !! "podTemplate") =
  go.Ok (api.PodTemplate node) /\
  runtime.persistentVolumeClaimSpecFromUnstructured conv (m !! "storage") =
  go.Ok (api.Storage node).
Proof.
  unfold api.appNodeFromUnstructured.
  intros (replicas & -> & (podTemplate & -> & (storage & -> & H)%bind_Ok)%bind_Ok)%bind_Ok.
  by simplify_eq.
Qed.

(** A quantity declared under [<field>.<name>] of a [resources] object is
    the entry [name] of the list the selector of [field] returns. *)
Lemma declared_in_resources m rr field fn name q :
  selects field fn ->
  runtime.resourceRequirementsFromUnstructured conv (Some (VMap m)) = go.Ok rr ->
  declares conv m [field; name] q ->
  go.mapaccess (fn rr) name = Some q.
Proof.
  intros Hsel Hrr (v & Hpath & Hq).
  apply NestedFieldNoCopy_cons_Found in Hpath as (lv & Hlv & lm & -> & Hname).
  apply NestedFieldNoCopy_cons_Found in Hname as (v' & Hv' & ->).
  apply resourceRequirementsFromUnstructured_fields in Hrr as [Hlimits Hrequests].
  destruct Hsel as [[-> ->] | [-> ->]]; unfold api.ResourceLimits, api.ResourceRequests.
  - rewrite Hlv in Hlimits.
    apply resourceListFromUnstructured_lookup in Hlimits as (g & -> & Hg).
    simpl. by rewrite Hg, Hv'.
  - rewrite Hlv in Hrequests.
    apply resourceListFromUnstructured_lookup in Hrequests as (g & -> & Hg).
    simpl. by rewrite Hg, Hv'.
Qed.

End ExtractionProperties.

Section ExtractionClaims.

Context (conv : runtime.UnstructuredConverter).

Implicit Types (obj m : gmap string value) (fields : list string).
Implicit Types (fn : core.ResourceRequirements -> core.ResourceList).

(** [AppNodeResources] once the path leads to an object that decodes. *)
Lemma AppNodeResources_decoded obj fn fields m node :
  unstructured.NestedFieldNoCopy obj fields = unstructured.Found (VMap m) ->
  api.appNodeFromUnstructured conv m = go.Ok node ->
  api.AppNodeResources conv obj fn fields =
  (rr ← go.mapassign (fn (ofst.Resources (ofst.Spec (api.PodTemplate node))))
          core.ResourceStorage (core.Storage (fn (core.Resources (api.Storage node))));
   go.Ok (rr, default 1 (api.Replicas_ node))).
Proof.
  intros Hpath Hnode. unfold api.AppNodeResources. rewrite Hpath. simpl.
  rewrite Hnode. by destruct (api.Replicas_ node).
Qed.

(** The replica count defaults to one when the field is missing or null,
    provided the selected list of the pod template is not nil. *)
Lemma AppNodeResources_replicas_default obj fn fields m node g :
  unstructured.NestedFieldNoCopy obj fields = unstructured.Found (VMap m) ->
  api.appNodeFromUnstructured conv m = go.Ok node ->
  m !! "replicas" = None \/ m !! "replicas" = Some VNull ->
  fn (ofst.Resources (ofst.Spec (api.PodTemplate node))) = Some g ->
  exists rl, api.AppNodeResources conv obj fn fields = go.Ok (rl, 1).
Proof.
  intros Hpath Hnode Hreplicas Hg.
  rewrite (AppNodeResources_decoded obj fn fields m node Hpath Hnode), Hg. simpl.
  apply appNodeFromUnstructured_fields in Hnode as (Hr & _ & _).
  assert (Hnil : api.Replicas_ node = None)
    by (destruct Hreplicas as [E | E]; rewrite E in Hr; simpl in Hr; congruence).
  rewrite Hnil. eauto.
Qed.

(** [aggregateLoop] is: keep the objects, decode them in order, stop at the
    first that fails, fold [aggregate] over the selected lists. *)
Lemma aggregateLoop_objects fn aggregate containers result :
  api.aggregateLoop conv fn aggregate containers result =
  match mapM (api.containerFromUnstructured conv) (objects containers) with
  | go.Ok cs =>
      go.Ok (fold_left (fun result c => aggregate result (fn (api.Resources c))) cs result)
  | go.Err err => go.Err (go.Wrapped "failed to parse container" err)
  | go.Panic p => go.Panic p
  end.
Proof.
  revert result. induction containers as [|v containers IH]; intros result; [done |].
  destruct v; simpl; try apply IH.
  destruct (api.containerFromUnstructured conv m) as [c | err | p]; simpl; [| done | done].
  rewrite IH.
  by destruct (mapM (api.containerFromUnstructured conv) (objects containers)).
Qed.

Lemma aggregated_sum fn cs result name :
  name ∈ kinds ->
  amount (fold_left (fun result c => api.AddResourceList result (fn (api.Resources c)))
            cs result) name
  = amount result name + sumZ ((fun c => amount (fn (api.Resources c)) name) <$> cs).
Proof.
  intros Hname. revert result. induction cs as [|c cs IH]; intros result; simpl.
  - unfold sumZ; simpl. lia.
  - rewrite IH, AddResourceList_amount by done.
    rewrite <- Z.add_assoc. reflexivity.
Qed.

End ExtractionClaims.

(** C1.  Where the code departs from the claim: when the path leads to a
    value that is not an object (a string, a number, an array, a null),
    [ContainerResources], [StorageResources] and [AppNodeResources] do not
    return a decode error, they panic on the unchecked type assertion
    [val.(map[string]interface{})]. *)
Theorem extraction_panics_on_non_object
  (conv : runtime.UnstructuredConverter) (obj : api.Object)
  (fn : core.ResourceRequirements -> core.ResourceList) (fields : list string)
  (val : value) :
  unstructured.NestedFieldNoCopy obj fields = unstructured.Found val ->
  isMap val = false ->
  api.ContainerResources conv obj fn fields = go.Panic (go.InterfaceConversion val) /\
  api.StorageResources conv obj fn fields = go.Panic (go.InterfaceConversion val) /\
  api.AppNodeResources conv obj fn fields = go.Panic (go.InterfaceConversion val).
Proof.
  intros Hpath Hval.
  unfold api.ContainerResources, api.StorageResources, api.AppNodeResources.
  rewrite Hpath. by destruct val.
Qed.

Lemma extraction_panics_on_non_object_witness :
  api.ContainerResources fixture.converter fixture.scalarMonitor api.ResourceLimits
    ["spec"; "monitor"; "prometheus"]
  = go.Panic (go.InterfaceConversion (VString "disabled")).
Proof.
  apply (extraction_panics_on_non_object fixture.converter fixture.scalarMonitor
           api.ResourceLimits ["spec"; "monitor"; "prometheus"] (VString "disabled")).
  - vm_compute. reflexivity.
  - reflexivity.
Defined.

(** What the claim C1 does get right: a path that runs into a non-object
    on the way is an error, and so is an object that does not decode. *)
Lemma ContainerResources_decode_error
  (conv : runtime.UnstructuredConverter) (obj : api.Object)
  (fn : core.ResourceRequirements -> core.ResourceList) (fields : list string)
  (m : gmap string value) (err : go.error) :
  unstructured.NestedFieldNoCopy obj fields = unstructured.Found (VMap m) ->
  api.containerFromUnstructured conv m = go.Err err ->
  api.ContainerResources conv obj fn fields =
  go.Err (go.Wrapped "failed to parse container" err).
Proof.
  intros Hpath Herr. unfold api.ContainerResources. rewrite Hpath. simpl.
  by rewrite Herr.
Qed.

(** C5, as amended.  When the sub-document at the path decodes, its pod
    template declares the storage quantity [X] and its storage claim the
    storage quantity [Y], both under the field the selector reads ([limits]
    for [ResourceLimits], [requests] for [ResourceRequests]),
    [AppNodeResources] returns a list whose storage entry is [Y]: the claim
    replaces the pod template's storage, the two are not added, and the
    other entries are those of the pod template. *)
Theorem AppNodeResources_storage_overlay
  (conv : runtime.UnstructuredConverter) (obj : api.Object)
  (fn : core.ResourceRequirements -> core.ResourceList) (fields : list string)
  (m : gmap string value) (node : api.AppNode) (field : string)
  (X Y : resource.Quantity) :
  selects field fn ->
  unstructured.NestedFieldNoCopy obj fields = unstructured.Found (VMap m) ->
  api.appNodeFromUnstructured conv m = go.Ok node ->
  declares conv m ["podTemplate"; "spec"; "resources"; field; "storage"] X ->
  declares conv m ["storage"; "resources"; field; "storage"] Y ->
  exists rl n,
    api.AppNodeResources conv obj fn fields = go.Ok (rl, n) /\
    go.mapaccess rl core.ResourceStorage = Some Y /\
    (resource.nanos X <> 0 ->
     amount rl core.ResourceStorage <> resource.nanos X + resource.nanos Y) /\
    (forall name, name <> core.ResourceStorage ->
       go.mapaccess rl name =
       go.mapaccess (fn (ofst.Resources (ofst.Spec (api.PodTemplate node)))) name).
Proof.
  intros Hsel Hpath Hnode (vx & Hx & HX) (vy & Hy & HY).
  rewrite (AppNodeResources_decoded conv obj fn fields m node Hpath Hnode).
  destruct (appNodeFromUnstructured_fields conv m node Hnode) as (_ & Hpt & Hpvc).
  (* the pod template's side *)
  apply NestedFieldNoCopy_cons_Found in Hx as (v1 & Hv1 & m1 & -> & Hx).
  apply NestedFieldNoCopy_cons_Found in Hx as (v2 & Hv2 & m2 & -> & Hx).
  apply NestedFieldNoCopy_cons_Found in Hx as (v3 & Hv3 & m3 & -> & Hx).
  rewrite Hv1 in Hpt. apply podTemplateSpecFromUnstructured_fields in Hpt.
  rewrite Hv2 in Hpt. apply podSpecFromUnstructured_fields in Hpt.
  rewrite Hv3 in Hpt.
  assert (HpodX : go.mapaccess (fn (ofst.Resources (ofst.Spec (api.PodTemplate node))))
                    "storage" = Some X)
    by (eapply declared_in_resources; [done | done | by exists vx]).
  (* the storage claim's side *)
  apply NestedFieldNoCopy_cons_Found in Hy as (w1 & Hw1 & n1 & -> & Hy).
  apply NestedFieldNoCopy_cons_Found in Hy as (w2 & Hw2 & n2 & -> & Hy).
  rewrite Hw1 in Hpvc. apply persistentVolumeClaimSpecFromUnstructured_fields in Hpvc.
  rewrite Hw2 in Hpvc.
  assert (HclaimY : go.mapaccess (fn (core.Resources (api.Storage node))) "storage" = Some Y)
    by (eapply declared_in_resources; [done | done | by exists vy]).
  destruct (fn (ofst.Resources (ofst.Spec (api.PodTemplate node)))) as [g|] eqn:Eg;
    [| done].
  unfold core.Storage, core.Name, core.ResourceStorage. rewrite HclaimY. simpl.
  eexists _, _. split; [reflexivity |]. simpl. split; [by rewrite lookup_insert_eq |].
  split.
  - unfold amount; simpl. rewrite lookup_insert_eq. lia.
  - intros name Hname. by rewrite lookup_insert_ne.
Qed.

(** The fixture workload declares 1Gi of storage in the pod template and
    10Gi in the claim: the node's list says 10Gi. *)
Lemma AppNodeResources_storage_overlay_witness :
  exists rl n,
    api.AppNodeResources fixture.converter fixture.workload api.ResourceLimits ["spec"]
    = go.Ok (rl, n) /\
    go.mapaccess rl core.ResourceStorage
    = Some (resource.mkQuantity (10 * 2 ^ 30 * 10 ^ 9) resource.BinarySI).
Proof.
  destruct (isOk_Ok (api.appNodeFromUnstructured fixture.converter fixture.spec))
    as [node Hnode]; [vm_compute; reflexivity |].
  destruct (AppNodeResources_storage_overlay fixture.converter fixture.workload
              api.ResourceLimits ["spec"] fixture.spec node "limits"
              (resource.mkQuantity (2 ^ 30 * 10 ^ 9) resource.BinarySI)
              (resource.mkQuantity (10 * 2 ^ 30 * 10 ^ 9) resource.BinarySI))
    as (rl & n & Hrl & Hstorage & _).
  - left. split; reflexivity.
  - unfold fixture.workload.
    rewrite (NestedFieldNoCopy_step _ "spec" _ (VMap fixture.spec))
      by apply lookup_singleton_eq.
    reflexivity.
  - exact Hnode.
  - exists (VString "1Gi"). split; vm_compute; reflexivity.
  - exists (VString "10Gi"). split; vm_compute; reflexivity.
  - exists rl, n. split; [exact Hrl | exact Hstorage].
Defined.

(** C5, the claim as the specification states it, fails when the two
    declarations are not under the same field.  The node below decodes, its
    pod template declares 1Gi of storage (under [limits]) and its storage
    claim 10Gi (under [requests]); with [ResourceLimits] the storage entry
    returned is zero, not the claim's 10Gi, and with [ResourceRequests] the
    call panics on the nil list of the pod template. *)
Lemma storage_overlay_counterexample :
  let X := resource.mkQuantity (2 ^ 30 * 10 ^ 9) resource.BinarySI in
  let Y := resource.mkQuantity (10 * 2 ^ 30 * 10 ^ 9) resource.BinarySI in
  unstructured.NestedFieldNoCopy fixture.crossed ["spec"]
  = unstructured.Found (VMap fixture.crossedSpec) /\
  go.isOk (api.appNodeFromUnstructured fixture.converter fixture.crossedSpec) = true /\
  declares fixture.converter fixture.crossedSpec
    ["podTemplate"; "spec"; "resources"; "limits"; "storage"] X /\
  declares fixture.converter fixture.crossedSpec
    ["storage"; "resources"; "requests"; "storage"] Y /\
  (exists rl n,
     api.AppNodeResources fixture.converter fixture.crossed api.ResourceLimits ["spec"]
     = go.Ok (rl, n) /\
     go.mapaccess rl core.ResourceStorage = Some (resource.zero resource.BinarySI) /\
     go.mapaccess rl core.ResourceStorage <> Some Y) /\
  api.AppNodeResources fixture.converter fixture.crossed api.ResourceRequests ["spec"]
  = go.Panic go.NilMapAssignment.
Proof.
  intros X Y.
  split.
  { unfold fixture.crossed.
    rewrite (NestedFieldNoCopy_step _ "spec" _ (VMap fixture.crossedSpec))
      by apply lookup_singleton_eq.
    reflexivity. }
  split; [vm_compute; reflexivity |].
  split; [exists (VString "1Gi"); split; vm_compute; reflexivity |].
  split; [exists (VString "10Gi"); split; vm_compute; reflexivity |].
  split; [| vm_compute; reflexivity].
  exists (Some {[ "storage" := resource.zero resource.BinarySI ]}), 1.
  split; [vm_compute; reflexivity |].
  split; [vm_compute; reflexivity |].
  intros Hstorage. vm_compute in Hstorage. discriminate Hstorage.
Qed.

(** C6.  Where the code departs from the claim: an app node that is present
    and decodes, with no [replicas] field, but whose pod template lacks the
    selected list.  The count is set to one, then the storage entry is
    written into the nil list [fn] returned and the call panics instead of
    returning. *)
Theorem AppNodeResources_panics_on_nil_list (conv : runtime.UnstructuredConverter) :
  fixture.bareNode !! "spec" = Some (VMap ∅) /\
  api.appNodeFromUnstructured conv ∅ =
  go.Ok (api.mkAppNode None
           (ofst.mkPodTemplateSpec (ofst.mkPodSpec (core.mkResourceRequirements None None)))
           (core.mkPersistentVolumeClaimSpec (core.mkResourceRequirements None None))) /\
  api.AppNodeResources conv fixture.bareNode api.ResourceLimits ["spec"]
  = go.Panic go.NilMapAssignment /\
  api.AppNodeResources conv fixture.bareNode api.ResourceRequests ["spec"]
  = go.Panic go.NilMapAssignment.
Proof. repeat split. Qed.

(** The same for any document: a decoded node whose selected pod-template
    list is nil makes [AppNodeResources] panic. *)
Lemma AppNodeResources_nil_list
  (conv : runtime.UnstructuredConverter) (obj : api.Object)
  (fn : core.ResourceRequirements -> core.ResourceList) (fields : list string)
  (m : gmap string value) (node : api.AppNode) :
  unstructured.NestedFieldNoCopy obj fields = unstructured.Found (VMap m) ->
  api.appNodeFromUnstructured conv m = go.Ok node ->
  fn (ofst.Resources (ofst.Spec (api.PodTemplate node))) = None ->
  api.AppNodeResources conv obj fn fields = go.Panic go.NilMapAssignment.
Proof.
  intros Hpath Hnode Hnil.
  by rewrite (AppNodeResources_decoded conv obj fn fields m node Hpath Hnode), Hnil.
Qed.

(** C9.  When the path is absent from the document, [AppNodeResources]
    returns the nil list, the count zero and no error: the default of one
    replica is for app nodes that are present. *)
Theorem AppNodeResources_absent
  (conv : runtime.UnstructuredConverter) (obj : api.Object)
  (fn : core.ResourceRequirements -> core.ResourceList) (fields : list string) :
  unstructured.NestedFieldNoCopy obj fields = unstructured.NotFound ->
  api.AppNodeResources conv obj fn fields = go.Ok (None, 0).
Proof. intros Hpath. unfold api.AppNodeResources. by rewrite Hpath. Qed.

Lemma AppNodeResources_absent_witness :
  api.AppNodeResources fixture.converter fixture.bareNode api.ResourceLimits
    ["spec"; "shardTopology"; "shard"]
  = go.Ok (None, 0).
Proof.
  apply AppNodeResources_absent.
  unfold fixture.bareNode.
  rewrite (NestedFieldNoCopy_step _ "spec" _ (VMap ∅)) by apply lookup_singleton_eq.
  reflexivity.
Defined.

(** C8.  When the path leads to an array, [AggregateContainerResources]
    passes over the entries that are not objects, decodes the others in
    order and folds [aggregate] over their selected lists, starting from the
    empty list; a decode error of one of them is returned as the error of
    the call.  With [AddResourceList] as [aggregate] the result holds, for
    each kind, the sum over the decoded entries.  When the path leads to
    anything that is not an array, the call returns an accessor error that
    carries the path and the value. *)
Theorem AggregateContainerResources_skips_and_folds
  (conv : runtime.UnstructuredConverter) (obj : api.Object)
  (fn : core.ResourceRequirements -> core.ResourceList)
  (aggregate : core.ResourceList -> core.ResourceList -> core.ResourceList)
  (fields : list string) (val : value) :
  unstructured.NestedFieldNoCopy obj fields = unstructured.Found val ->
  (forall containers, val = VArr containers ->
     api.AggregateContainerResources conv obj fn aggregate fields =
     match mapM (api.containerFromUnstructured conv) (objects containers) with
     | go.Ok cs => go.Ok (aggregated fn aggregate cs)
     | go.Err err => go.Err (go.Wrapped "failed to parse container" err)
     | go.Panic p => go.Panic p
     end /\
     forall cs, mapM (api.containerFromUnstructured conv) (objects containers) = go.Ok cs ->
       exists total,
         api.AggregateContainerResources conv obj fn api.AddResourceList fields
         = go.Ok total /\
         forall name, name ∈ kinds ->
           amount total name = sumZ ((fun c => amount (fn (api.Resources c)) name) <$> cs)) /\
  (isArr val = false ->
   api.AggregateContainerResources conv obj fn aggregate fields =
   go.Err (go.AccessorError fields val "[]interface{}")).
Proof.
  intros Hpath. unfold api.AggregateContainerResources. rewrite Hpath. split.
  - intros containers ->. rewrite !aggregateLoop_objects. split; [done |].
    intros cs ->. eexists. split; [reflexivity |].
    intros name Hname. by rewrite aggregated_sum.
  - intros Hval. by destruct val.
Qed.

(** The init containers of the fixture workload: a string, which is passed
    over, then 2 cpu, then 64Mi of memory. *)
Lemma AggregateContainerResources_skips_and_folds_witness :
  exists total,
    api.AggregateContainerResources fixture.converter fixture.workload
      api.ResourceLimits api.AddResourceList ["spec"; "init"; "initContainers"]
    = go.Ok total /\
    amount total core.ResourceCPU = 2 * 10 ^ 9 /\
    amount total core.ResourceMemory = 64 * 2 ^ 20 * 10 ^ 9.
Proof.
  pose (containers :=
    [ VString "not an object";
      VMap {[ "resources" := fixture.resources {[ "cpu" := VInt 2 ]} {[ "cpu" := VInt 2 ]} ]};
      VMap {[ "resources" := fixture.resources {[ "memory" := VString "64Mi" ]} ∅ ]} ]).
  destruct (AggregateContainerResources_skips_and_folds fixture.converter
              fixture.workload api.ResourceLimits api.AddResourceList
              ["spec"; "init"; "initContainers"] (VArr containers))
    as [Harray _]; [vm_compute; reflexivity |].
  destruct (Harray containers eq_refl) as [_ Hsum].
  destruct (isOk_Ok (mapM (api.containerFromUnstructured fixture.converter)
                       (objects containers))) as [cs Hcs]; [vm_compute; reflexivity |].
  destruct (Hsum cs Hcs) as (total & Htotal & Hamount).
  exists total. split; [exact Htotal |].
  rewrite !Hamount by (apply elem_of_kinds; tauto).
  assert (Hlist : forall name,
    (fun c => amount (api.ResourceLimits (api.Resources c)) name) <$> cs =
    match mapM (api.containerFromUnstructured fixture.converter) (objects containers) with
    | go.Ok cs' => (fun c => amount (api.ResourceLimits (api.Resources c)) name) <$> cs'
    | _ => []
    end) by (intros name; by rewrite Hcs).
  rewrite !Hlist. split; vm_compute; reflexivity.
Defined.

Lemma arithmetic_keeps_three_kinds_witness :
  let x : core.ResourceList :=
    Some {[ "cpu" := resource.mkQuantity (10 ^ 9) resource.DecimalSI;
            "ephemeral-storage" := resource.mkQuantity (2 ^ 30 * 10 ^ 9) resource.BinarySI ]} in
  go.mapaccess x "ephemeral-storage" <> None /\
  go.mapaccess (api.AddResourceList x x) "ephemeral-storage" = None /\
  go.mapaccess (api.MaxResourceList x x) "ephemeral-storage" = None /\
  go.mapaccess (api.ResourceListForRoles {[ "default" := x ]} ["default"])
    "ephemeral-storage" = None.
Proof.
  intros x. split; [vm_compute; discriminate |].
  apply arithmetic_keeps_three_kinds.
  rewrite elem_of_kinds. intros [H | [H | H]]; discriminate H.
Defined.






(** The int64 range in the amended C3 is needed.  2^62 milli-units of cpu
    are not negative, are whole milli-units and have an int64 milli-value;
    four times that value wraps around to zero in int64 arithmetic, and
    [MulResourceList] stores the zero. *)
Lemma MulResourceList_wraps_to_zero :
  nonNegative fixture.hugeCPU /\ wholeMilli fixture.hugeCPU /\
  go.fits_int64 (resource.MilliValue (core.Cpu fixture.hugeCPU)) = true /\
  go.fits_int64 (resource.MilliValue (core.Cpu fixture.hugeCPU) * 4) = false /\
  api.MulResourceList fixture.hugeCPU 4
  = Some {[ "cpu" := resource.mkQuantity 0 resource.DecimalSI ]} /\
  ~ NoExplicitZero (api.MulResourceList fixture.hugeCPU 4).
Proof.
  split.
  { intros name Hname.
    apply elem_of_kinds in Hname as [-> | [-> | ->]]; vm_compute; discriminate. }
  split.
  { intros name Hname. apply elem_of_kinds in Hname as [-> | [-> | ->]].
    - exists (2 ^ 62). vm_compute. reflexivity.
    - exists 0. vm_compute. reflexivity.
    - exists 0. vm_compute. reflexivity. }
  split; [vm_compute; reflexivity |]. split; [vm_compute; reflexivity |].
  split; [vm_compute; reflexivity |].
  intros Hmul.
  specialize (Hmul "cpu"%string (resource.mkQuantity 0 resource.DecimalSI)
                ltac:(vm_compute; reflexivity)).
  discriminate Hmul.
Qed.

(** C4.  Where the code departs from the claim: [MulResourceList] tests the
    quantity of [x] for zero, not the product, so a multiplier of zero
    leaves every kind of [x] in the result with the value zero; the result
    is not the empty list.  By one, the same list comes back. *)
Theorem MulResourceList_zero_multiplier :
  api.MulResourceList fixture.oneCPU 0
  = Some {[ "cpu" := resource.mkQuantity 0 resource.DecimalSI ]} /\
  api.MulResourceList fixture.oneCPU 0 <> Some ∅ /\
  api.MulResourceList fixture.oneCPU 1 = fixture.oneCPU.
Proof.
  split; [vm_compute; reflexivity |]. split; [| vm_compute; reflexivity].
  intros Hempty.
  apply (f_equal (fun rl => go.mapaccess rl "cpu")) in Hempty.
  vm_compute in Hempty. discriminate Hempty.
Qed.

(** * Further properties of the code

    ** Algebra of the resource lists *)

Section Algebra.

Implicit Types (x y z : core.ResourceList) (q : resource.Quantity).

Lemma amount_outside x name : OnlyKinds x -> name ∉ kinds -> amount x name = 0.
Proof. intros Hx Hname. unfold amount. by rewrite (Hx name Hname). Qed.

Lemma store_sameStored name q q' result :
  sameStored q q' -> store name q result = store name q' result.
Proof.
  intros [Hn Hf]. unfold store, resource.IsZero. rewrite <- Hn.
  destruct (resource.nanos q =? 0) eqn:E; [done |]. apply Z.eqb_neq in E. simpl.
  f_equal. destruct q, q'; simpl in *. f_equal; auto.
Qed.

Lemma store3_sameStored c c' m m' s s' :
  sameStored c c' -> sameStored m m' -> sameStored s s' ->
  store3 c m s = store3 c' m' s'.
Proof.
  intros Hc Hm Hs. unfold store3.
  by rewrite (store_sameStored _ s s'), (store_sameStored _ m m'),
    (store_sameStored _ c c').
Qed.

Lemma Name_noKinds y name f : noKinds y -> name ∈ kinds -> core.Name y name f = resource.zero f.
Proof. intros Hy Hname. unfold core.Name. by rewrite (Hy name Hname). Qed.

Lemma cpu_in_kinds : core.ResourceCPU ∈ kinds.
Proof. apply elem_of_kinds. tauto. Qed.

Lemma memory_in_kinds : core.ResourceMemory ∈ kinds.
Proof. apply elem_of_kinds. tauto. Qed.

Lemma storage_in_kinds : core.ResourceStorage ∈ kinds.
Proof. apply elem_of_kinds. tauto. Qed.

(** Adding a zero quantity on either side stores what was there. *)
Lemma Add_zero_sameStored q f f' :
  sameStored (resource.Add (resource.Add (resource.zero f) q) (resource.zero f')) q /\
  sameStored (resource.Add (resource.Add (resource.zero f) (resource.zero f')) q) q.
Proof.
  unfold sameStored, resource.Add; simpl. repeat split; try lia.
  intros Hq. destruct (0 + resource.nanos q =? 0) eqn:E; [apply Z.eqb_eq in E; lia | done].
Qed.

(** X1.  A list that has none of cpu, memory and storage (the nil list, the
    empty list) is neutral for [AddResourceList] on both sides: the sum is
    the other list cut down to the three kinds, zero entries dropped, each
    quantity with its own format. *)
Theorem AddResourceList_neutral x y :
  noKinds y ->
  api.AddResourceList x y = normalize x /\ api.AddResourceList y x = normalize x.
Proof.
  intros Hy. rewrite !AddResourceList_store3. unfold normalize.
  unfold core.Cpu, core.Memory, core.Storage.
  rewrite !(Name_noKinds y) by auto using cpu_in_kinds, memory_in_kinds, storage_in_kinds.
  split; apply store3_sameStored; apply Add_zero_sameStored.
Qed.

Lemma AddResourceList_neutral_witness :
  api.AddResourceList fixture.oneCPU None = normalize fixture.oneCPU /\
  api.AddResourceList None fixture.oneCPU = normalize fixture.oneCPU.
Proof. apply AddResourceList_neutral. intros name _. reflexivity. Defined.

(** X2.  [AddResourceList] is commutative and associative in value: for
    every key, the number held by the sum does not depend on the order or
    the grouping of the operands (the display format may). *)
Theorem AddResourceList_comm_assoc x y z name :
  amount (api.AddResourceList x y) name = amount (api.AddResourceList y x) name /\
  amount (api.AddResourceList (api.AddResourceList x y) z) name =
  amount (api.AddResourceList x (api.AddResourceList y z)) name.
Proof.
  destruct (decide (name ∈ kinds)) as [Hname | Hname].
  - rewrite !AddResourceList_amount by done. lia.
  - rewrite !amount_outside; [done | | done | | done | | done | | done];
      rewrite AddResourceList_store3; apply store3_OnlyKinds.
Qed.

Lemma greater_refl q : greater q q = q.
Proof.
  unfold greater, resource.Cmp. by rewrite Z.compare_refl.
Qed.

Lemma greater_zero q f :
  0 <= resource.nanos q ->
  sameStored (greater q (resource.zero f)) q /\
  sameStored (greater (resource.zero f) q) q.
Proof.
  destruct q as [n fq]. unfold sameStored, greater, resource.Cmp; simpl. intros Hn.
  destruct n; simpl; try lia; repeat split; try done.
Qed.

(** X3.  [MaxResourceList] is idempotent (the maximum of a list with itself
    is the list cut down to the three kinds without its zero entries),
    commutative in value, and against a list that has none of the three
    kinds it returns the other operand when that has no negative kind. *)
Theorem MaxResourceList_idempotent_comm x y name :
  api.MaxResourceList x x = normalize x /\
  amount (api.MaxResourceList x y) name = amount (api.MaxResourceList y x) name /\
  (noKinds y -> nonNegative x ->
   api.MaxResourceList x y = normalize x /\ api.MaxResourceList y x = normalize x).
Proof.
  split; [| split].
  - rewrite MaxResourceList_store3. by rewrite !greater_refl.
  - destruct (decide (name ∈ kinds)) as [Hname | Hname].
    + rewrite !MaxResourceList_amount by done. lia.
    + rewrite !amount_outside; [done | | done | | done];
        rewrite MaxResourceList_store3; apply store3_OnlyKinds.
  - intros Hy Hx. rewrite !MaxResourceList_store3. unfold normalize.
    unfold core.Cpu, core.Memory, core.Storage.
    rewrite !(Name_noKinds y) by auto using cpu_in_kinds, memory_in_kinds, storage_in_kinds.
    assert (Hg : forall name f f', name ∈ kinds ->
      sameStored (greater (core.Name x name f) (resource.zero f')) (core.Name x name f) /\
      sameStored (greater (resource.zero f') (core.Name x name f)) (core.Name x name f)).
    { intros name' f f' Hname'. apply greater_zero.
      rewrite Name_nanos. by apply Hx. }
    split; apply store3_sameStored; apply Hg;
      auto using cpu_in_kinds, memory_in_kinds, storage_in_kinds.
Qed.

Lemma MaxResourceList_idempotent_comm_witness :
  api.MaxResourceList fixture.oneCPU None = normalize fixture.oneCPU /\
  api.MaxResourceList None fixture.oneCPU = normalize fixture.oneCPU.
Proof.
  destruct (MaxResourceList_idempotent_comm fixture.oneCPU None "cpu") as (_ & _ & Hnil).
  apply Hnil.
  - intros name _. reflexivity.
  - intros name Hname.
    apply elem_of_kinds in Hname as [-> | [-> | ->]]; vm_compute; discriminate.
Defined.

Lemma Name_store3 c m s name f :
  name ∈ kinds ->
  sameStored (core.Name (store3 c m s) name f)
    (if decide (name = core.ResourceCPU) then c
     else if decide (name = core.ResourceMemory) then m else s).
Proof.
  intros Hname. unfold core.Name, store3; simpl.
  rewrite !lookup_store, lookup_empty.
  apply elem_of_kinds in Hname as [-> | [-> | ->]];
    repeat (case_decide; try done);
    unfold sameStored, resource.IsZero;
    match goal with |- context [resource.nanos ?q =? 0] =>
      destruct (resource.nanos q =? 0) eqn:E;
        [apply Z.eqb_eq in E; simpl; split; [lia | intros; lia] | done]
    end.
Qed.

Lemma normalize_store3 c m s : normalize (store3 c m s) = store3 c m s.
Proof.
  unfold normalize, core.Cpu, core.Memory, core.Storage.
  apply store3_sameStored.
  - apply (Name_store3 c m s core.ResourceCPU), cpu_in_kinds.
  - apply (Name_store3 c m s core.ResourceMemory), memory_in_kinds.
  - apply (Name_store3 c m s core.ResourceStorage), storage_in_kinds.
Qed.

(** X4.  Every list the arithmetic returns is already in normal form:
    cutting the result of [AddResourceList], [MaxResourceList] or
    [ResourceListForRoles] down to the three kinds and dropping zero entries
    changes nothing, and cutting down twice is cutting down once. *)
Theorem arithmetic_results_normal x y (rr : api.RoleResourceList) (roles : list api.PodRole) :
  normalize (api.AddResourceList x y) = api.AddResourceList x y /\
  normalize (api.MaxResourceList x y) = api.MaxResourceList x y /\
  normalize (api.ResourceListForRoles rr roles) = api.ResourceListForRoles rr roles /\
  normalize (normalize x) = normalize x.
Proof.
  split; [| split; [| split]].
  - rewrite AddResourceList_store3. apply normalize_store3.
  - rewrite MaxResourceList_store3. apply normalize_store3.
  - destruct (ResourceListForRoles_store3 rr roles) as (c & m & s & _ & ->).
    apply normalize_store3.
  - apply normalize_store3.
Qed.

End Algebra.

(** ** Sums over roles *)

Section RoleSums.

Implicit Types (rr : api.RoleResourceList) (roles : list api.PodRole).

Lemma roleSum_app rr roles roles' name :
  roleSum rr (roles ++ roles') name = roleSum rr roles name + roleSum rr roles' name.
Proof.
  induction roles as [|role roles IH]; [by rewrite roleSum_nil |].
  change ((role :: roles) ++ roles') with (role :: (roles ++ roles')).
  rewrite !roleSum_cons, IH. lia.
Qed.

Lemma roleSum_Permutation rr roles roles' name :
  roles ≡ₚ roles' -> roleSum rr roles name = roleSum rr roles' name.
Proof.
  induction 1 as [| role l l' _ IH | a b l | l l' l'' _ IH1 _ IH2].
  - done.
  - by rewrite !roleSum_cons, IH.
  - rewrite !roleSum_cons. lia.
  - by rewrite IH1.
Qed.

Lemma roleSum_present rr roles name :
  roleSum rr (filter (fun role => is_Some (rr !! role)) roles) name = roleSum rr roles name.
Proof.
  induction roles as [|role roles IH]; [done |].
  rewrite filter_cons. destruct (decide (is_Some (rr !! role))) as [Hin | Hout].
  - by rewrite !roleSum_cons, IH.
  - rewrite roleSum_cons, IH.
    assert (rr !! role = None) as Hnone
      by (destruct (rr !! role); [exfalso; apply Hout; eauto | done]).
    unfold roleList. rewrite Hnone. unfold amount. simpl. lia.
Qed.

Lemma ResourceListForRoles_amount_all rr roles name :
  amount (api.ResourceListForRoles rr roles) name =
  if decide (name ∈ kinds) then roleSum rr roles name else 0.
Proof.
  case_decide as Hname.
  - by apply ResourceListForRoles_amount.
  - apply amount_outside; [| done].
    destruct (ResourceListForRoles_store3 rr roles) as (c & m & s & _ & ->).
    apply store3_OnlyKinds.
Qed.

(** X5.  [ResourceListForRoles] does not depend on the order of the role
    list: two lists that are permutations of one another give the same
    value for every key. *)
Theorem ResourceListForRoles_order rr roles roles' name :
  roles ≡ₚ roles' ->
  amount (api.ResourceListForRoles rr roles) name =
  amount (api.ResourceListForRoles rr roles') name.
Proof.
  intros Hperm. rewrite !ResourceListForRoles_amount_all.
  case_decide; [by apply roleSum_Permutation | done].
Qed.

Lemma ResourceListForRoles_order_witness :
  let rr : api.RoleResourceList := {[ "default" := fixture.oneCPU ]} in
  amount (api.ResourceListForRoles rr ["default"; "exporter"]) "cpu" =
  amount (api.ResourceListForRoles rr ["exporter"; "default"]) "cpu".
Proof.
  intros rr. apply ResourceListForRoles_order. apply Permutation_swap.
Defined.

(** X6.  The subtotal of two role lists put end to end is the sum of the
    two subtotals, for every key; roles that the map does not hold can be
    left out of the list without changing any value; the subtotal of no
    role at all is the empty, non-nil list. *)
Theorem ResourceListForRoles_splits rr roles roles' name :
  amount (api.ResourceListForRoles rr (roles ++ roles')) name =
  amount (api.AddResourceList (api.ResourceListForRoles rr roles)
            (api.ResourceListForRoles rr roles')) name /\
  amount (api.ResourceListForRoles rr roles) name =
  amount (api.ResourceListForRoles rr
            (filter (fun role => is_Some (rr !! role)) roles)) name /\
  api.ResourceListForRoles rr [] = Some ∅.
Proof.
  split; [| split; [| reflexivity]].
  - destruct (decide (name ∈ kinds)) as [Hname | Hname].
    + rewrite AddResourceList_amount, !ResourceListForRoles_amount by done.
      apply roleSum_app.
    + rewrite !amount_outside; [done | | done | | done].
      * rewrite AddResourceList_store3. apply store3_OnlyKinds.
      * destruct (ResourceListForRoles_store3 rr (roles ++ roles'))
          as (c & m & s & _ & ->).
        apply store3_OnlyKinds.
  - rewrite !ResourceListForRoles_amount_all.
    case_decide; [by rewrite roleSum_present | done].
Qed.

End RoleSums.

(** ** Scaling *)

Section Scaling.

Implicit Types (x : core.ResourceList).

Lemma div_away_bounds a d :
  0 < d -> 0 <= a -> a <= resource.div_away a d * d < a + d.
Proof.
  intros Hd Ha. unfold resource.div_away.
  pose proof (Z.quot_rem' a d) as Hqr.
  pose proof (Z.rem_bound_pos a d Ha Hd) as Hr.
  destruct (Z.rem a d =? 0) eqn:E.
  - apply Z.eqb_eq in E. nia.
  - apply Z.eqb_neq in E.
    assert (a <> 0) by (intros ->; rewrite Z.rem_0_l in E; lia).
    rewrite Z.sgn_pos by lia. nia.
Qed.




(** X8.  A quantity that is not a whole number of milli-units is rounded up
    to the next milli-unit by [MulResourceList], also when the multiplier is
    one: for a kind that is not negative and whose milli-value fits in an
    int64, the result of multiplying by one is a whole number of milli-units
    that is at least the operand and less than one milli-unit above it. *)
Theorem MulResourceList_rounds_up x name :
  name ∈ kinds -> 0 <= amount x name -> milliFits x 1 ->
  amount x name <= amount (api.MulResourceList x 1) name < amount x name + 10 ^ 6 /\
  exists k, amount (api.MulResourceList x 1) name = k * 10 ^ 6.
Proof.
  intros Hname Hpos Hfits. destruct (Hfits name Hname) as [Hm _].
  assert (Hvalue : amount (api.MulResourceList x 1) name =
                   if amount x name =? 0 then 0
                   else resource.div_away (amount x name) (10 ^ 6) * 10 ^ 6).
  { unfold amount at 1. rewrite (MulResourceList_lookup x 1 name Hname).
    destruct (amount x name =? 0); [done |]. cbv zeta. simpl.
    rewrite MilliValue_fits by (by rewrite Name_nanos). rewrite Name_nanos.
    unfold go.mul64. by rewrite Z.mul_1_r, wrap64_fits. }
  rewrite Hvalue. destruct (amount x name =? 0) eqn:E.
  - apply Z.eqb_eq in E. split; [lia | by exists 0].
  - split; [| by eexists]. apply div_away_bounds; lia.
Qed.

Lemma MulResourceList_rounds_up_witness :
  let x : core.ResourceList :=
    Some {[ "cpu" := resource.mkQuantity 1500 resource.DecimalSI ]} in
  amount x "cpu" = 1500 /\
  amount x "cpu" <= amount (api.MulResourceList x 1) "cpu" < amount x "cpu" + 10 ^ 6.
Proof.
  intros x. split; [vm_compute; reflexivity |].
  apply MulResourceList_rounds_up.
  - apply cpu_in_kinds.
  - vm_compute. discriminate.
  - intros name Hname.
    apply elem_of_kinds in Hname as [-> | [-> | ->]]; split; vm_compute; reflexivity.
Defined.

End Scaling.

(** ** The derived queries of the adapter *)

Section DerivedQueries.

Implicit Types (rr : api.RoleResourceList) (roles : list api.PodRole).

Lemma roleSum_submseteq rr roles roles' name :
  (forall role, 0 <= amount (roleList rr role) name) ->
  roles ⊆+ roles' -> roleSum rr roles name <= roleSum rr roles' name.
Proof.
  intros Hpos. induction 1 as [| role l l' _ IH | a b l | role l l' _ IH | l l' l'' _ IH1 _ IH2].
  - done.
  - rewrite !roleSum_cons. lia.
  - rewrite !roleSum_cons. lia.
  - rewrite roleSum_cons. specialize (Hpos role). lia.
  - lia.
Qed.

(** X9.  Whenever the role resource map [rr] is produced without error,
    [AppResourceLimits] (and likewise [AppResourceRequests]) returns, for
    each of cpu, memory and storage, the sum of [rr] over the app roles,
    in a list without other keys and without zero entries; the init role and
    the roles outside [AppRoles] play no part. *)
Theorem AppResource_sums_app_roles (c : api.ResourceCalculatorFuncs) (obj : api.Object) :
  (forall rr, api.RoleResourceLimits c obj = go.Ok rr ->
     exists app,
       api.AppResourceLimits c obj = go.Ok app /\
       (forall name, name ∈ kinds -> amount app name = roleSum rr (api.AppRoles c) name) /\
       NoExplicitZero app /\ OnlyKinds app) /\
  (forall rr, api.RoleResourceRequests c obj = go.Ok rr ->
     exists app,
       api.AppResourceRequests c obj = go.Ok app /\
       (forall name, name ∈ kinds -> amount app name = roleSum rr (api.AppRoles c) name) /\
       NoExplicitZero app /\ OnlyKinds app).
Proof.
  split; intros rr Hrr; eexists.
  - unfold api.AppResourceLimits. rewrite Hrr. split; [reflexivity |].
    split; [intros name Hname; by apply ResourceListForRoles_amount |].
    destruct (ResourceListForRoles_store3 rr (api.AppRoles c)) as (cpu & m & s & _ & ->).
    split; [apply store3_NoExplicitZero | apply store3_OnlyKinds].
  - unfold api.AppResourceRequests. rewrite Hrr. split; [reflexivity |].
    split; [intros name Hname; by apply ResourceListForRoles_amount |].
    destruct (ResourceListForRoles_store3 rr (api.AppRoles c)) as (cpu & m & s & _ & ->).
    split; [apply store3_NoExplicitZero | apply store3_OnlyKinds].
Qed.

Lemma AppResource_sums_app_roles_witness :
  exists app,
    api.AppResourceLimits fixture.fixedCalculator ∅ = go.Ok app /\
    amount app "cpu" = roleSum fixture.fixedRoles ["default"] "cpu".
Proof.
  destruct (AppResource_sums_app_roles fixture.fixedCalculator ∅) as [Hlimits _].
  destruct (Hlimits fixture.fixedRoles eq_refl) as (app & Happ & Hsum & _).
  exists app. split; [exact Happ |]. apply Hsum, cpu_in_kinds.
Defined.

(** X10.  When every app role is also a runtime role (as a multiset) and no
    role holds a negative quantity, the total is at least the app subtotal,
    for every key, for limits and for requests. *)
Theorem Total_at_least_App
  (InitPodRole : api.PodRole) (c : api.ResourceCalculatorFuncs) (obj : api.Object)
  (name : string) :
  api.AppRoles c ⊆+ api.RuntimeRoles c ->
  (forall rr, api.RoleResourceLimits c obj = go.Ok rr ->
     (forall role, nonNegative (roleList rr role)) ->
     exists total app,
       api.TotalResourceLimits InitPodRole c obj = go.Ok total /\
       api.AppResourceLimits c obj = go.Ok app /\
       amount app name <= amount total name) /\
  (forall rr, api.RoleResourceRequests c obj = go.Ok rr ->
     (forall role, nonNegative (roleList rr role)) ->
     exists total app,
       api.TotalResourceRequests InitPodRole c obj = go.Ok total /\
       api.AppResourceRequests c obj = go.Ok app /\
       amount app name <= amount total name).
Proof.
  intros Hsub.
  assert (Hle : forall rr, (forall role, nonNegative (roleList rr role)) ->
    amount (api.ResourceListForRoles rr (api.AppRoles c)) name <=
    amount (api.MaxResourceList (api.ResourceListForRoles rr (api.RuntimeRoles c))
              (api.ResourceListForRoles rr [InitPodRole])) name).
  { intros rr Hpos. destruct (decide (name ∈ kinds)) as [Hname | Hname].
    - rewrite MaxResourceList_amount, !ResourceListForRoles_amount by done.
      pose proof (roleSum_submseteq rr _ _ name (fun role => Hpos role name Hname) Hsub).
      lia.
    - rewrite !amount_outside; [done | | done | | done].
      + rewrite MaxResourceList_store3. apply store3_OnlyKinds.
      + destruct (ResourceListForRoles_store3 rr (api.AppRoles c)) as (cpu & m & s & _ & ->).
        apply store3_OnlyKinds. }
  split; intros rr Hrr Hpos; eexists _, _.
  - unfold api.TotalResourceLimits, api.AppResourceLimits. rewrite Hrr.
    split; [reflexivity |]. split; [reflexivity |]. by apply Hle.
  - unfold api.TotalResourceRequests, api.AppResourceRequests. rewrite Hrr.
    split; [reflexivity |]. split; [reflexivity |]. by apply Hle.
Qed.

Lemma fixedRoles_nonNegative role : nonNegative (roleList fixture.fixedRoles role).
Proof.
  intros name Hname. unfold roleList, fixture.fixedRoles.
  destruct (decide (role = "default")) as [-> | Hrole].
  - rewrite lookup_singleton_eq.
    apply elem_of_kinds in Hname as [-> | [-> | ->]]; vm_compute; discriminate.
  - rewrite lookup_singleton_ne by done. unfold amount. simpl. lia.
Defined.

Lemma Total_at_least_App_witness :
  exists total app,
    api.TotalResourceLimits "init" fixture.fixedCalculator ∅ = go.Ok total /\
    api.AppResourceLimits fixture.fixedCalculator ∅ = go.Ok app /\
    amount app "cpu" <= amount total "cpu".
Proof.
  destruct (Total_at_least_App "init" fixture.fixedCalculator ∅ "cpu") as [Hlimits _].
  - apply (submseteq_inserts_r ["exporter"] ["default"] ["default"]). reflexivity.
  - apply (Hlimits fixture.fixedRoles eq_refl fixedRoles_nonNegative).
Defined.

End DerivedQueries.

(** ** Reading by path *)

Section Paths.

Implicit Types (obj m : gmap string value) (v w : value).
Implicit Types (seen pre post fields : list string).

Lemma underPrefix_app pre post (r : unstructured.Nested) :
  underPrefix pre (underPrefix post r) = underPrefix (pre ++ post) r.
Proof.
  destruct r as [| | [path v expected | | |]]; simpl; try done.
  by rewrite app_assoc.
Qed.

Lemma underPrefix_nil (r : unstructured.Nested) : underPrefix [] r = r.
Proof. by destruct r as [| | [| | |]]. Qed.

(** The path already walked only shows in the error message. *)
Lemma walk_seen v seen fields :
  unstructured.walk v seen fields = underPrefix seen (unstructured.walk v [] fields).
Proof.
  revert v seen. induction fields as [|field rest IH]; intros v seen; [done |].
  destruct v; simpl; try done.
  destruct (m !! field) as [v'|]; [| done].
  rewrite (IH v' (seen ++ [field])), (IH v' [field]). by rewrite underPrefix_app.
Qed.

Lemma walk_app v seen pre post :
  unstructured.walk v seen (pre ++ post) =
  match unstructured.walk v seen pre with
  | unstructured.Found w => unstructured.walk w (seen ++ pre) post
  | r => r
  end.
Proof.
  revert v seen. induction pre as [|field pre IH]; intros v seen; simpl.
  - by rewrite app_nil_r.
  - destruct v; try done. destruct (m !! field) as [v'|]; [| done].
    rewrite IH. by rewrite <- app_assoc.
Qed.

Lemma NestedFieldNoCopy_snoc obj fields m field :
  unstructured.NestedFieldNoCopy obj fields = unstructured.Found (VMap m) ->
  unstructured.NestedFieldNoCopy obj (fields ++ [field]) =
  match m !! field with
  | Some v => unstructured.Found v
  | None => unstructured.NotFound
  end.
Proof.
  unfold unstructured.NestedFieldNoCopy. intros Hpath.
  rewrite walk_app, Hpath. simpl. by destruct (m !! field).
Qed.

(** Paths compose: below a prefix that leads to an object, reading the
    whole path in the document is reading the rest of it in that object. *)
Lemma NestedFieldNoCopy_app obj pre post m :
  unstructured.NestedFieldNoCopy obj pre = unstructured.Found (VMap m) ->
  unstructured.NestedFieldNoCopy obj (pre ++ post) =
  underPrefix pre (unstructured.NestedFieldNoCopy m post).
Proof.
  unfold unstructured.NestedFieldNoCopy. intros Hpre.
  rewrite walk_app, Hpre. simpl. apply walk_seen.
Qed.

(** Where a path stops: at a prefix that is not found or fails, at a null,
    at a value that is neither null nor an object. *)
Lemma NestedFieldNoCopy_stops obj pre field post :
  (unstructured.NestedFieldNoCopy obj pre = unstructured.NotFound ->
   unstructured.NestedFieldNoCopy obj (pre ++ field :: post) = unstructured.NotFound) /\
  (forall err, unstructured.NestedFieldNoCopy obj pre = unstructured.Failed err ->
   unstructured.NestedFieldNoCopy obj (pre ++ field :: post) = unstructured.Failed err) /\
  (unstructured.NestedFieldNoCopy obj pre = unstructured.Found VNull ->
   unstructured.NestedFieldNoCopy obj (pre ++ field :: post) = unstructured.NotFound) /\
  (forall v, unstructured.NestedFieldNoCopy obj pre = unstructured.Found v ->
   v <> VNull -> isMap v = false ->
   unstructured.NestedFieldNoCopy obj (pre ++ field :: post) =
   unstructured.Failed
     (go.AccessorError (pre ++ [field]) v "map[string]interface{}")).
Proof.
  unfold unstructured.NestedFieldNoCopy.
  repeat split.
  - intros Hpre. by rewrite walk_app, Hpre.
  - intros err Hpre. by rewrite walk_app, Hpre.
  - intros Hpre. by rewrite walk_app, Hpre.
  - intros v Hpre Hnull Hmap. rewrite walk_app, Hpre. by destruct v.
Qed.

Section BelowPrefix.

Context (conv : runtime.UnstructuredConverter).

Implicit Types (fn : core.ResourceRequirements -> core.ResourceList).

(** X11.  A calculator may hand a sub-document to the extraction functions:
    when a prefix of the path leads to an object, calling
    [ContainerResources], [StorageResources], [AggregateContainerResources]
    or [AppNodeResources] on the document with the whole path gives what the
    call on that object with the rest of the path gives; only the path named
    in an accessor error differs, by the prefix. *)
Theorem extraction_below_prefix obj pre post m fn aggregate :
  unstructured.NestedFieldNoCopy obj pre = unstructured.Found (VMap m) ->
  api.ContainerResources conv obj fn (pre ++ post)
  = belowPrefix pre (api.ContainerResources conv m fn post) /\
  api.StorageResources conv obj fn (pre ++ post)
  = belowPrefix pre (api.StorageResources conv m fn post) /\
  api.AggregateContainerResources conv obj fn aggregate (pre ++ post)
  = belowPrefix pre (api.AggregateContainerResources conv m fn aggregate post) /\
  api.AppNodeResources conv obj fn (pre ++ post)
  = belowPrefix pre (api.AppNodeResources conv m fn post).
Proof.
  intros Hpre.
  unfold api.ContainerResources, api.StorageResources, api.AggregateContainerResources,
    api.AppNodeResources.
  rewrite (NestedFieldNoCopy_app obj pre post m Hpre).
  destruct (unstructured.NestedFieldNoCopy m post) as [val | | [path v expected | | |]];
    simpl; try done.
  repeat split.
  - destruct val; simpl; try done.
    by destruct (api.containerFromUnstructured conv m0).
  - destruct val; simpl; try done.
    by destruct (api.storageFromUnstructured conv m0).
  - destruct val; simpl; try done.
    rewrite aggregateLoop_objects. by destruct (mapM _ _).
  - destruct val; simpl; try done.
    destruct (api.appNodeFromUnstructured conv m0) as [node | |]; try done.
    unfold go.mapassign.
    by destruct (fn (ofst.Resources (ofst.Spec (api.PodTemplate node)))).
Qed.

(** X12.  A non-object on the way is not a non-object at the end.  When a
    proper prefix of the path leads to a null, the four extraction functions
    return nothing and no error, as for an absent path.  When it leads to a
    boolean, a number, a string or an array, they return the accessor error
    that names the path up to the first field asked of that value, and
    carries the value; they do not panic. *)
Theorem extraction_through_non_object obj pre field post v fn aggregate :
  unstructured.NestedFieldNoCopy obj pre = unstructured.Found v ->
  isMap v = false ->
  let fields := pre ++ field :: post in
  let err := go.AccessorError (pre ++ [field]) v "map[string]interface{}" in
  (v = VNull ->
   api.ContainerResources conv obj fn fields = go.Ok None /\
   api.StorageResources conv obj fn fields = go.Ok None /\
   api.AggregateContainerResources conv obj fn aggregate fields = go.Ok None /\
   api.AppNodeResources conv obj fn fields = go.Ok (None, 0)) /\
  (v <> VNull ->
   api.ContainerResources conv obj fn fields = go.Err err /\
   api.StorageResources conv obj fn fields = go.Err err /\
   api.AggregateContainerResources conv obj fn aggregate fields = go.Err err /\
   api.AppNodeResources conv obj fn fields = go.Err err).
Proof.
  intros Hpre Hmap fields err. subst fields err.
  destruct (NestedFieldNoCopy_stops obj pre field post) as (_ & _ & Hnull & Hscalar).
  unfold api.ContainerResources, api.StorageResources, api.AggregateContainerResources,
    api.AppNodeResources.
  split.
  - intros ->. by rewrite (Hnull Hpre).
  - intros Hv. by rewrite (Hscalar v Hpre Hv Hmap).
Qed.

End BelowPrefix.

Lemma extraction_below_prefix_witness :
  api.AppNodeResources fixture.converter fixture.sharded api.ResourceLimits
    (["spec"; "shardTopology"] ++ ["mongos"])
  = belowPrefix ["spec"; "shardTopology"]
      (api.AppNodeResources fixture.converter fixture.topology api.ResourceLimits
         ["mongos"]).
Proof.
  destruct (extraction_below_prefix fixture.converter fixture.sharded
              ["spec"; "shardTopology"] ["mongos"] fixture.topology api.ResourceLimits
              api.AddResourceList) as (_ & _ & _ & Hnode).
  - change ["spec"; "shardTopology"] with (["spec"] ++ ["shardTopology"] : list string).
    rewrite (NestedFieldNoCopy_snoc fixture.sharded ["spec"] fixture.shardedSpec).
    + unfold fixture.shardedSpec. rewrite lookup_insert_eq. reflexivity.
    + unfold fixture.sharded.
      rewrite (NestedFieldNoCopy_step _ "spec" _ (VMap fixture.shardedSpec))
        by apply lookup_singleton_eq.
      reflexivity.
  - exact Hnode.
Defined.

Lemma extraction_through_non_object_witness :
  api.ContainerResources fixture.converter fixture.scalarMonitor api.ResourceLimits
    (["spec"; "monitor"; "prometheus"] ++ ["exporter"])
  = go.Err (go.AccessorError ["spec"; "monitor"; "prometheus"; "exporter"]
              (VString "disabled") "map[string]interface{}").
Proof.
  destruct (extraction_through_non_object fixture.converter fixture.scalarMonitor
              ["spec"; "monitor"; "prometheus"] "exporter" [] (VString "disabled")
              api.ResourceLimits api.AddResourceList) as [_ Hscalar].
  - vm_compute. reflexivity.
  - reflexivity.
  - destruct Hscalar as (Hcontainer & _); [discriminate | exact Hcontainer].
Defined.

End Paths.

(** ** What the extraction functions read *)

Section Readers.

Context (conv : runtime.UnstructuredConverter).

Implicit Types (obj m r l : gmap string value) (fields : list string).
Implicit Types (fn : core.ResourceRequirements -> core.ResourceList).

Lemma resourceListFromUnstructured_total l rl :
  runtime.resourceListFromUnstructured conv (Some (VMap l)) = go.Ok rl ->
  forall name v, l !! name = Some v -> is_Some (runtime.quantityFromUnstructured conv v).
Proof.
  unfold runtime.resourceListFromUnstructured.
  case_bool_decide as Hall; [| done]. intros _ name v Hv.
  apply (map_Forall_lookup_1 _ _ name _ Hall).
  by rewrite lookup_fmap, Hv.
Qed.

Lemma resourceListFromUnstructured_rejects l name v :
  l !! name = Some v -> runtime.quantityFromUnstructured conv v = None ->
  runtime.resourceListFromUnstructured conv (Some (VMap l)) = go.Err go.ConversionError.
Proof.
  intros Hv Hq. unfold runtime.resourceListFromUnstructured.
  case_bool_decide as Hall; [| done]. exfalso.
  assert (is_Some (@None resource.Quantity)) as [? ?]; [| done].
  apply (map_Forall_lookup_1 _ _ name _ Hall).
  by rewrite lookup_fmap, Hv, <- Hq.
Qed.

Lemma resourceListFromUnstructured_outcome sv :
  (exists rl, runtime.resourceListFromUnstructured conv sv = go.Ok rl) \/
  runtime.resourceListFromUnstructured conv sv = go.Err go.ConversionError.
Proof.
  unfold runtime.resourceListFromUnstructured.
  destruct sv as [[]|]; eauto. case_bool_decide; eauto.
Qed.

Lemma selected_list r rr field fn l :
  selects field fn ->
  runtime.resourceRequirementsFromUnstructured conv (Some (VMap r)) = go.Ok rr ->
  r !! field = Some (VMap l) ->
  exists g, fn rr = Some g /\
    (forall name, g !! name = l !! name ≫= runtime.quantityFromUnstructured conv) /\
    (forall name, is_Some (g !! name) <-> is_Some (l !! name)).
Proof.
  intros Hsel Hrr Hl.
  apply resourceRequirementsFromUnstructured_fields in Hrr as [Hlimits Hrequests].
  assert (Hlist : runtime.resourceListFromUnstructured conv (Some (VMap l)) = go.Ok (fn rr))
    by (destruct Hsel as [[-> ->] | [-> ->]]; by rewrite <- Hl).
  pose proof (resourceListFromUnstructured_total l _ Hlist) as Htotal.
  apply resourceListFromUnstructured_lookup in Hlist as (g & -> & Hg).
  exists g. split; [done |]. split; [done |].
  intros name. rewrite Hg. destruct (l !! name) as [v|] eqn:Hv; simpl.
  - split; [eauto | intros _; by eapply Htotal].
  - split; intros [? ?]; done.
Qed.

Lemma selected_nil r rr field fn :
  selects field fn ->
  runtime.resourceRequirementsFromUnstructured conv (Some (VMap r)) = go.Ok rr ->
  r !! field = None -> fn rr = None.
Proof.
  intros Hsel Hrr Hl.
  apply resourceRequirementsFromUnstructured_fields in Hrr as [Hlimits Hrequests].
  destruct Hsel as [[-> ->] | [-> ->]].
  - rewrite Hl in Hlimits. simpl in Hlimits. by simplify_eq.
  - rewrite Hl in Hrequests. simpl in Hrequests. by simplify_eq.
Qed.

(** X13.  [ContainerResources] and [StorageResources] return what the
    document says.  When the path leads to an object that decodes and whose
    [resources] is an object, the list returned for a selector is nil if
    the field it selects ([limits] or [requests]) is missing, and otherwise
    has exactly the keys of that field, each with the quantity the converter
    reads from the document's value, no key added, dropped or defaulted. *)
Theorem resources_read_back obj fn fields m r field :
  selects field fn ->
  unstructured.NestedFieldNoCopy obj fields = unstructured.Found (VMap m) ->
  m !! "resources" = Some (VMap r) ->
  (go.isOk (api.containerFromUnstructured conv m) = true ->
   readsField conv r field (api.ContainerResources conv obj fn fields)) /\
  (go.isOk (api.storageFromUnstructured conv m) = true ->
   readsField conv r field (api.StorageResources conv obj fn fields)).
Proof.
  intros Hsel Hpath Hr. unfold readsField. split.
  - intros [c Hc]%isOk_Ok.
    unfold api.ContainerResources. rewrite Hpath. simpl. rewrite Hc.
    unfold api.containerFromUnstructured in Hc. rewrite Hr in Hc.
    apply bind_Ok in Hc as (rr & Hrr & Hc). simplify_eq. simpl.
    split.
    + intros Hnone. by rewrite (selected_nil r rr field fn).
    + intros l Hl. destruct (selected_list r rr field fn l Hsel Hrr Hl) as (g & -> & Hg).
      by exists g.
  - intros [pvc Hpvc]%isOk_Ok.
    unfold api.StorageResources. rewrite Hpath. simpl. rewrite Hpvc.
    unfold api.storageFromUnstructured in Hpvc.
    apply persistentVolumeClaimSpecFromUnstructured_fields in Hpvc. rewrite Hr in Hpvc.
    split.
    + intros Hnone. by rewrite (selected_nil r _ field fn).
    + intros l Hl.
      destruct (selected_list r _ field fn l Hsel Hpvc Hl) as (g & -> & Hg).
      by exists g.
Qed.

(** X14.  A quantity that the converter rejects is never passed over: if
    [resources.limits] or [resources.requests] of the object at the path
    holds one, [ContainerResources] fails with the wrapped conversion error
    whatever the selector, so also when the malformed entry is in the list
    that is not selected. *)
Theorem malformed_quantity_fails obj fn fields m r field l name v :
  unstructured.NestedFieldNoCopy obj fields = unstructured.Found (VMap m) ->
  m !! "resources" = Some (VMap r) ->
  field = "limits"%string \/ field = "requests"%string ->
  r !! field = Some (VMap l) ->
  l !! name = Some v ->
  runtime.quantityFromUnstructured conv v = None ->
  api.ContainerResources conv obj fn fields =
  go.Err (go.Wrapped "failed to parse container" go.ConversionError).
Proof.
  intros Hpath Hr Hfield Hl Hv Hq.
  pose proof (resourceListFromUnstructured_rejects l name v Hv Hq) as Hrej.
  unfold api.ContainerResources. rewrite Hpath. simpl.
  unfold api.containerFromUnstructured. rewrite Hr.
  unfold runtime.resourceRequirementsFromUnstructured.
  destruct Hfield as [-> | ->].
  - rewrite Hl, Hrej. reflexivity.
  - rewrite Hl, Hrej.
    by destruct (resourceListFromUnstructured_outcome (r !! "limits")) as [[rl ->] | ->].
Qed.

End Readers.

Lemma sidecar_path (doc : gmap string value) :
  unstructured.NestedFieldNoCopy {[ "sidecar" := VMap doc ]} ["sidecar"]
  = unstructured.Found (VMap doc).
Proof.
  rewrite (NestedFieldNoCopy_step _ "sidecar" _ (VMap doc)) by apply lookup_singleton_eq.
  reflexivity.
Qed.

Lemma resources_read_back_witness :
  exists g,
    api.ContainerResources fixture.converter fixture.sidecar api.ResourceLimits ["sidecar"]
    = go.Ok (Some g) /\
    g !! "cpu" = Some (resource.mkQuantity (250 * 10 ^ 6) resource.DecimalSI) /\
    api.ContainerResources fixture.converter fixture.sidecar api.ResourceRequests ["sidecar"]
    = go.Ok None.
Proof.
  destruct (resources_read_back fixture.converter fixture.sidecar api.ResourceLimits
              ["sidecar"] fixture.containerDoc fixture.containerResources "limits")
    as [[_ Hlimits] _].
  - left. split; reflexivity.
  - apply sidecar_path.
  - apply lookup_singleton_eq.
  - vm_compute. reflexivity.
  - destruct (Hlimits fixture.containerLimits (lookup_singleton_eq _ _)) as (g & Hg & Hlookup & _).
    exists g. split; [exact Hg |]. split.
    + rewrite Hlookup. unfold fixture.containerLimits. rewrite lookup_singleton_eq.
      vm_compute. reflexivity.
    + destruct (resources_read_back fixture.converter fixture.sidecar api.ResourceRequests
                  ["sidecar"] fixture.containerDoc fixture.containerResources "requests")
        as [[Hnil _] _].
      * right. split; reflexivity.
      * apply sidecar_path.
      * apply lookup_singleton_eq.
      * vm_compute. reflexivity.
      * apply Hnil. apply lookup_singleton_ne. discriminate.
Defined.

Lemma malformed_quantity_fails_witness :
  api.ContainerResources fixture.converter fixture.badSidecar api.ResourceRequests
    ["sidecar"]
  = go.Err (go.Wrapped "failed to parse container" go.ConversionError).
Proof.
  apply (malformed_quantity_fails fixture.converter fixture.badSidecar
           api.ResourceRequests ["sidecar"] fixture.badDoc fixture.badResources
           "limits" fixture.badLimits "cpu" (VBool true)).
  - apply sidecar_path.
  - apply lookup_singleton_eq.
  - left. reflexivity.
  - apply lookup_singleton_eq.
  - apply lookup_singleton_eq.
  - reflexivity.
Defined.

Section Aggregates.

Context (conv : runtime.UnstructuredConverter).

Implicit Types (obj m : gmap string value) (fields : list string).
Implicit Types (fn : core.ResourceRequirements -> core.ResourceList).

Lemma fold_store3 fn (aggregate : core.ResourceList -> core.ResourceList -> core.ResourceList)
  (cs : list api.Container) (init : core.ResourceList) :
  (forall x y, exists cpu memory storage, aggregate x y = store3 cpu memory storage) ->
  (exists cpu memory storage, init = store3 cpu memory storage) ->
  exists cpu memory storage,
    fold_left (fun result c => aggregate result (fn (api.Resources c))) cs init
    = store3 cpu memory storage.
Proof.
  intros Hagg. revert init. induction cs as [|c cs IH]; intros init Hinit; [done |].
  simpl. apply IH, Hagg.
Qed.

(** X15.  Unlike the single-container reader, [AggregateContainerResources]
    with [AddResourceList] or [MaxResourceList] returns a list in normal
    form whatever the containers declare: no zero entry, no key beyond cpu,
    memory and storage.  The list is nil exactly when the path is absent; an
    array, even an empty one, gives a non-nil list. *)
Theorem AggregateContainerResources_normal obj fn fields aggregate total :
  aggregate = api.AddResourceList \/ aggregate = api.MaxResourceList ->
  api.AggregateContainerResources conv obj fn aggregate fields = go.Ok total ->
  NoExplicitZero total /\ OnlyKinds total /\
  (total = None <-> unstructured.NestedFieldNoCopy obj fields = unstructured.NotFound).
Proof.
  intros Hagg. unfold api.AggregateContainerResources.
  destruct (unstructured.NestedFieldNoCopy obj fields) as [val | | err]; [| | done].
  - destruct val; try done. rewrite aggregateLoop_objects.
    destruct (mapM _ _) as [cs | |]; [| done | done]. intros Htotal. simplify_eq.
    destruct (fold_store3 fn aggregate cs (Some ∅)) as (cpu & memory & storage & ->).
    + intros x y. destruct Hagg as [-> | ->].
      * rewrite AddResourceList_store3. eauto.
      * rewrite MaxResourceList_store3. eauto.
    + exists (resource.zero resource.DecimalSI), (resource.zero resource.BinarySI),
        (resource.zero resource.BinarySI). reflexivity.
    + split; [apply store3_NoExplicitZero |]. split; [apply store3_OnlyKinds |].
      split; intros; done.
  - intros Htotal. simplify_eq. repeat split; try done.
Qed.

Lemma AppNodeResources_replicas_field obj fn fields m rl k :
  unstructured.NestedFieldNoCopy obj fields = unstructured.Found (VMap m) ->
  api.AppNodeResources conv obj fn fields = go.Ok (rl, k) ->
  exists r, runtime.int64PtrFromUnstructured (m !! "replicas") = go.Ok r /\
            k = default 1 r.
Proof.
  intros Hpath Hnode.
  unfold api.AppNodeResources in Hnode. rewrite Hpath in Hnode. simpl in Hnode.
  destruct (api.appNodeFromUnstructured conv m) as [node | |] eqn:Hdec; [| done | done].
  apply bind_Ok in Hnode as (rr & _ & Hk). simplify_eq.
  apply appNodeFromUnstructured_fields in Hdec as (Hreplicas & _ & _).
  exists (api.Replicas_ node). split; [done |]. by destruct (api.Replicas_ node).
Qed.

Lemma count_declared obj fn fields m rl k n :
  unstructured.NestedFieldNoCopy obj fields = unstructured.Found (VMap m) ->
  api.AppNodeResources conv obj fn fields = go.Ok (rl, k) ->
  unstructured.NestedInt64 obj (fields ++ ["replicas"]) = unstructured.Has n ->
  k = n.
Proof.
  intros Hpath Hnode Hn.
  destruct (AppNodeResources_replicas_field obj fn fields m rl k Hpath Hnode)
    as (r & Hr & ->).
  unfold unstructured.NestedInt64 in Hn.
  rewrite (NestedFieldNoCopy_snoc obj fields m "replicas" Hpath) in Hn.
  destruct (m !! "replicas") as [[]|]; simplify_eq. simpl in Hr. by simplify_eq.
Qed.

Lemma count_missing obj fn fields m rl k :
  unstructured.NestedFieldNoCopy obj fields = unstructured.Found (VMap m) ->
  api.AppNodeResources conv obj fn fields = go.Ok (rl, k) ->
  unstructured.NestedInt64 obj (fields ++ ["replicas"]) = unstructured.Missing ->
  k = 1.
Proof.
  intros Hpath Hnode Hn.
  destruct (AppNodeResources_replicas_field obj fn fields m rl k Hpath Hnode)
    as (r & Hr & ->).
  unfold unstructured.NestedInt64 in Hn.
  rewrite (NestedFieldNoCopy_snoc obj fields m "replicas" Hpath) in Hn.
  destruct (m !! "replicas") as [[]|]; simplify_eq. simpl in Hr. by simplify_eq.
Qed.

(** X16.  The replica count of [AppNodeResources] and the count read with
    [NestedInt64] at [replicas] below the same path agree when the field
    holds an int64.  When the field is missing they differ:
    [AppNodeResources] says one, where a caller that keeps the zero value of
    [NestedInt64] says zero. *)
Theorem AppNodeResources_count obj fn fields m rl k :
  unstructured.NestedFieldNoCopy obj fields = unstructured.Found (VMap m) ->
  api.AppNodeResources conv obj fn fields = go.Ok (rl, k) ->
  (forall n, unstructured.NestedInt64 obj (fields ++ ["replicas"]) = unstructured.Has n ->
     k = n) /\
  (unstructured.NestedInt64 obj (fields ++ ["replicas"]) = unstructured.Missing ->
     k = 1 /\
     unstructured.orZero 0 (unstructured.NestedInt64 obj (fields ++ ["replicas"])) = go.Ok 0).
Proof.
  intros Hpath Hnode. split.
  - intros n Hn. by apply (count_declared obj fn fields m rl k n).
  - intros Hmissing. split; [by apply (count_missing obj fn fields m rl) |].
    by rewrite Hmissing.
Qed.

End Aggregates.

Lemma AggregateContainerResources_normal_witness :
  exists total,
    api.AggregateContainerResources fixture.converter fixture.workload
      api.ResourceLimits api.AddResourceList ["spec"; "init"; "initContainers"]
    = go.Ok total /\
    NoExplicitZero total /\ OnlyKinds total.
Proof.
  destruct (isOk_Ok (api.AggregateContainerResources fixture.converter fixture.workload
                       api.ResourceLimits api.AddResourceList
                       ["spec"; "init"; "initContainers"]))
    as [total Htotal]; [vm_compute; reflexivity |].
  exists total. split; [exact Htotal |].
  destruct (AggregateContainerResources_normal fixture.converter fixture.workload
              api.ResourceLimits ["spec"; "init"; "initContainers"]
              api.AddResourceList total (or_introl eq_refl) Htotal) as (Hzero & Hkinds & _).
  split; [exact Hzero | exact Hkinds].
Defined.

Lemma AppNodeResources_count_witness :
  exists rl k,
    api.AppNodeResources fixture.converter fixture.diskless api.ResourceLimits ["spec"]
    = go.Ok (rl, k) /\ k = 1.
Proof.
  destruct (isOk_Ok (api.AppNodeResources fixture.converter fixture.diskless
                       api.ResourceLimits ["spec"]))
    as [[rl k] Hnode]; [vm_compute; reflexivity |].
  exists rl, k. split; [exact Hnode |].
  destruct (AppNodeResources_count fixture.converter fixture.diskless api.ResourceLimits
              ["spec"] fixture.disklessSpec rl k) as [_ Hmissing].
  - unfold fixture.diskless.
    rewrite (NestedFieldNoCopy_step _ "spec" _ (VMap fixture.disklessSpec))
      by apply lookup_singleton_eq.
    reflexivity.
  - exact Hnode.
  - apply Hmissing. vm_compute. reflexivity.
Defined.

(** ** The MongoDB and Redis calculators *)

Section CalculatorProperties.

Context (DefaultPodRole ExporterPodRole TotalShardPodRole ShardPodRole
         PerShardPodRole ConfigServerPodRole MongosPodRole : api.PodRole).
Context (DBModeStandalone DBModeReplicaSet DBModeSharded DBModeCluster : string).
Context (conv : runtime.UnstructuredConverter).

(** The role constants are distinct. *)
Context (Hroles : NoDup [DefaultPodRole; ExporterPodRole; TotalShardPodRole; ShardPodRole;
                         PerShardPodRole; ConfigServerPodRole; MongosPodRole]).

Abbreviation MongoDB :=
  (v1alpha2.MongoDB_ResourceCalculator DefaultPodRole ExporterPodRole TotalShardPodRole
     ShardPodRole PerShardPodRole ConfigServerPodRole MongosPodRole
     DBModeStandalone DBModeReplicaSet DBModeSharded conv).

Abbreviation Redis :=
  (v1alpha2.Redis_ResourceCalculator DefaultPodRole ExporterPodRole TotalShardPodRole
     ShardPodRole PerShardPodRole DBModeStandalone DBModeCluster conv).

Implicit Types (obj st : gmap string value).

Lemma wrap64_idemp z : go.wrap64 (go.wrap64 z) = go.wrap64 z.
Proof.
  pose proof (wrap64_add_l z 0) as H. by rewrite !Z.add_0_r in H.
Qed.

Lemma add64_0_l z : go.add64 0 z = go.wrap64 z.
Proof. reflexivity. Qed.

Lemma add64_wrap_l a b : go.add64 (go.wrap64 a) b = go.wrap64 (a + b).
Proof. apply wrap64_add_l. Qed.

Lemma add64_sum a b c d :
  go.add64 (go.add64 (go.add64 (go.wrap64 a) b) c) d = go.wrap64 (a + b + c + d).
Proof.
  rewrite !add64_wrap_l. reflexivity.
Qed.

Lemma roles_distinct :
  DefaultPodRole <> ExporterPodRole /\ DefaultPodRole <> TotalShardPodRole /\
  DefaultPodRole <> ShardPodRole /\ DefaultPodRole <> PerShardPodRole /\
  DefaultPodRole <> ConfigServerPodRole /\ DefaultPodRole <> MongosPodRole /\
  ExporterPodRole <> TotalShardPodRole /\ ExporterPodRole <> ConfigServerPodRole /\
  ExporterPodRole <> MongosPodRole /\
  TotalShardPodRole <> ShardPodRole /\ TotalShardPodRole <> PerShardPodRole /\
  TotalShardPodRole <> ConfigServerPodRole /\ TotalShardPodRole <> MongosPodRole /\
  ShardPodRole <> ConfigServerPodRole /\ ShardPodRole <> MongosPodRole /\
  PerShardPodRole <> ConfigServerPodRole /\ PerShardPodRole <> MongosPodRole /\
  ConfigServerPodRole <> MongosPodRole.
Proof.
  repeat (apply NoDup_cons in Hroles as [? Hroles]).
  repeat split; set_solver.
Qed.

Lemma sharded_replica_total obj st shards shardReplicas configServers mongos :
  unstructured.NestedMap obj ["spec"; "shardTopology"] = unstructured.Has st ->
  unstructured.orZero 0 (unstructured.NestedInt64 st ["shard"; "shards"]) = go.Ok shards ->
  unstructured.orZero 0 (unstructured.NestedInt64 st ["shard"; "replicas"])
  = go.Ok shardReplicas ->
  unstructured.orZero 0 (unstructured.NestedInt64 st ["configServer"; "replicas"])
  = go.Ok configServers ->
  unstructured.orZero 0 (unstructured.NestedInt64 st ["mongos"; "replicas"]) = go.Ok mongos ->
  api.Replicas MongoDB obj
  = go.Ok (go.wrap64 (go.mul64 shards shardReplicas + configServers + mongos)).
Proof.
  intros Hst Hshards Hsr Hcs Hm.
  destruct roles_distinct as
    (? & ? & ? & ? & ? & ? & ? & ? & ? & ? & ? & ? & ? & ? & ? & ? & ? & ?).
  unfold api.Replicas, api.RoleReplicas. simpl.
  unfold v1alpha2.MongoDB_roleReplicasFn. rewrite Hst, Hshards, Hsr, Hcs, Hm. simpl.
  f_equal.
  rewrite lookup_insert_ne, lookup_insert_ne, lookup_insert_ne, lookup_insert_ne,
    lookup_singleton_ne by done.
  rewrite lookup_insert_eq.
  rewrite lookup_insert_ne, lookup_insert_ne, lookup_insert_ne, lookup_insert_eq by done.
  rewrite lookup_insert_ne, lookup_insert_ne, lookup_insert_ne, lookup_insert_ne,
    lookup_singleton_eq by done.
  simpl. change (go.add64 0 0) with (go.wrap64 0). apply add64_sum.
Qed.


(** X17.  Replicas of a sharded MongoDB.  When [spec.shardTopology] is an
    object, [Replicas] is, in int64 arithmetic, shards times replicas per
    shard, plus the config servers, plus the mongos, each count read as zero
    when its field is absent: the shard count and the per-shard count, which
    the replica map also lists, are not added a second time.  When the
    product and the sum fit in an int64 that is the number itself. *)
Theorem MongoDB_Replicas_sharded obj st shards shardReplicas configServers mongos :
  unstructured.NestedMap obj ["spec"; "shardTopology"] = unstructured.Has st ->
  unstructured.orZero 0 (unstructured.NestedInt64 st ["shard"; "shards"]) = go.Ok shards ->
  unstructured.orZero 0 (unstructured.NestedInt64 st ["shard"; "replicas"])
  = go.Ok shardReplicas ->
  unstructured.orZero 0 (unstructured.NestedInt64 st ["configServer"; "replicas"])
  = go.Ok configServers ->
  unstructured.orZero 0 (unstructured.NestedInt64 st ["mongos"; "replicas"]) = go.Ok mongos ->
  api.Replicas MongoDB obj
  = go.Ok (go.wrap64 (go.mul64 shards shardReplicas + configServers + mongos)) /\
  (go.fits_int64 (shards * shardReplicas) = true ->
   go.fits_int64 (shards * shardReplicas + configServers + mongos) = true ->
   api.Replicas MongoDB obj
   = go.Ok (shards * shardReplicas + configServers + mongos)).
Proof.
  intros Hst Hshards Hsr Hcs Hm.
  pose proof (sharded_replica_total obj st shards shardReplicas configServers mongos
                Hst Hshards Hsr Hcs Hm) as Htotal.
  split; [exact Htotal |]. intros Hproduct Hsum. rewrite Htotal.
  unfold go.mul64. by rewrite (wrap64_fits _ Hproduct), (wrap64_fits _ Hsum).
Qed.

(** What both calculators make of [spec.replicas] outside the sharded
    modes. *)
Lemma MongoDB_plain_replicas obj :
  unstructured.NestedMap obj ["spec"; "shardTopology"] = unstructured.Missing ->
  api.Replicas MongoDB obj = plainReplicas obj.
Proof.
  destruct roles_distinct as
    (? & ? & ? & ? & ? & ? & ? & ? & ? & ? & ? & ? & ? & ? & ? & ? & ? & ?).
  intros Hst. unfold api.Replicas, api.RoleReplicas, plainReplicas. simpl.
  unfold v1alpha2.MongoDB_roleReplicasFn. rewrite Hst.
  destruct (unstructured.NestedInt64 obj ["spec"; "replicas"]); simpl; [| | done].
  - rewrite lookup_singleton_eq, !lookup_singleton_ne by done. simpl.
    rewrite add64_0_l. unfold go.add64. by rewrite !Z.add_0_r, !wrap64_idemp.
  - rewrite lookup_singleton_eq, !lookup_singleton_ne by done. reflexivity.
Qed.

(** X18.  Replicas of a MongoDB or a Redis that is not sharded.  When
    [spec.shardTopology] is absent (for Redis: when [spec.mode] is absent or
    is not the cluster mode), [Replicas] is [spec.replicas] if that is an
    int64, one if the field is absent, and the wrapped accessor error if the
    field holds anything else. *)
Theorem Replicas_unsharded obj :
  (unstructured.NestedMap obj ["spec"; "shardTopology"] = unstructured.Missing ->
   api.Replicas MongoDB obj = plainReplicas obj) /\
  (forall mode, unstructured.NestedString obj ["spec"; "mode"] = mode ->
     (forall err, mode <> unstructured.Mistyped err) ->
     v1alpha2.isCluster DBModeCluster mode = false ->
     api.Replicas Redis obj = plainReplicas obj).
Proof.
  split; [apply MongoDB_plain_replicas |].
  intros mode Hmode Herr Hcluster.
  unfold api.Replicas, api.RoleReplicas, plainReplicas. simpl.
  unfold v1alpha2.Redis_roleReplicasFn. rewrite Hmode.
  destruct mode as [mode | | err]; [| | by destruct (Herr err)];
    rewrite Hcluster;
    (destruct (unstructured.NestedInt64 obj ["spec"; "replicas"]); simpl; [| | done];
     rewrite lookup_singleton_eq; reflexivity).
Qed.

(** X19.  A [spec.shardTopology] that is present but is not an object, a
    null included, is not taken as absent by the MongoDB calculator: [Mode]
    and [Replicas] fail with the accessor error that names the path and
    carries the value, and so do the role resources once the exporter has
    been read. *)
Theorem MongoDB_shardTopology_not_object obj v :
  unstructured.NestedFieldNoCopy obj ["spec"; "shardTopology"] = unstructured.Found v ->
  isMap v = false ->
  let err := go.AccessorError ["spec"; "shardTopology"] v "map[string]interface{}" in
  api.Mode MongoDB obj = go.Err err /\
  api.Replicas MongoDB obj = go.Err err /\
  (forall exporter,
     api.ContainerResources conv obj api.ResourceLimits ["spec"; "monitor"; "prometheus"]
     = go.Ok exporter ->
     api.RoleResourceLimits MongoDB obj = go.Err err).
Proof.
  intros Hpath Hv err.
  assert (Hmap : unstructured.NestedMap obj ["spec"; "shardTopology"]
                 = unstructured.Mistyped err)
    by (unfold unstructured.NestedMap; rewrite Hpath; by destruct v).
  split; [| split].
  - unfold api.Mode. simpl. unfold v1alpha2.MongoDB_modeFn. by rewrite Hmap.
  - unfold api.Replicas, api.RoleReplicas. simpl.
    unfold v1alpha2.MongoDB_roleReplicasFn. by rewrite Hmap.
  - intros exporter Hexporter. unfold api.RoleResourceLimits. simpl.
    unfold v1alpha2.MongoDB_roleResourceFn. rewrite Hexporter. simpl. by rewrite Hmap.
Qed.

Lemma NestedInt64_Has_node st node field n :
  unstructured.NestedInt64 st [node; field] = unstructured.Has n ->
  exists m, unstructured.NestedFieldNoCopy st [node] = unstructured.Found (VMap m) /\
            unstructured.orZero 0 (unstructured.NestedInt64 st [node; field]) = go.Ok n.
Proof.
  intros Hn. rewrite Hn. unfold unstructured.NestedInt64 in Hn.
  destruct (unstructured.NestedFieldNoCopy st [node; field]) as [w | |] eqn:Hpath;
    [| done | done].
  apply NestedFieldNoCopy_cons_Found in Hpath as (v & Hv & m & -> & _).
  exists m. split; [| done].
  rewrite (NestedFieldNoCopy_step _ node _ (VMap m)) by done. reflexivity.
Qed.

(** X20.  In a sharded MongoDB whose shard, config server and mongos nodes
    each declare an int64 [replicas], the exporter is scaled by the replica
    count: whenever the role resources are produced, [Replicas] succeeds
    with a count [N], and the exporter role holds the exporter container's
    list multiplied by that same [N]. *)
Theorem MongoDB_exporter_scaled_by_Replicas obj st fn rr shardReplicas configServers mongos :
  unstructured.NestedMap obj ["spec"; "shardTopology"] = unstructured.Has st ->
  unstructured.NestedInt64 st ["shard"; "replicas"] = unstructured.Has shardReplicas ->
  unstructured.NestedInt64 st ["configServer"; "replicas"] = unstructured.Has configServers ->
  unstructured.NestedInt64 st ["mongos"; "replicas"] = unstructured.Has mongos ->
  v1alpha2.MongoDB_roleResourceFn DefaultPodRole ExporterPodRole TotalShardPodRole
    ConfigServerPodRole MongosPodRole conv fn obj = go.Ok rr ->
  exists exporter N,
    api.ContainerResources conv obj fn ["spec"; "monitor"; "prometheus"] = go.Ok exporter /\
    api.Replicas MongoDB obj = go.Ok N /\
    rr !! ExporterPodRole = Some (api.MulResourceList exporter N).
Proof.
  intros Hst Hsr Hcs Hm Hrr.
  destruct roles_distinct as
    (? & ? & ? & ? & ? & ? & ? & ? & ? & ? & ? & ? & ? & ? & ? & ? & ? & ?).
  destruct (NestedInt64_Has_node _ _ _ _ Hsr) as (msr & Psr & Zsr).
  destruct (NestedInt64_Has_node _ _ _ _ Hcs) as (mcs & Pcs & Zcs).
  destruct (NestedInt64_Has_node _ _ _ _ Hm) as (mm & Pm & Zm).
  unfold v1alpha2.MongoDB_roleResourceFn in Hrr.
  apply bind_Ok in Hrr as (exporter & Hexporter & Hrr). rewrite Hst in Hrr.
  apply bind_Ok in Hrr as (shards & Hshards & Hrr).
  apply bind_Ok in Hrr as ([shard k1] & Hk1 & Hrr).
  apply bind_Ok in Hrr as ([configServer k2] & Hk2 & Hrr).
  apply bind_Ok in Hrr as ([mongosList k3] & Hk3 & Hrr).
  rewrite (count_declared conv st fn ["shard"] msr shard k1 shardReplicas Psr Hk1 Hsr),
    (count_declared conv st fn ["configServer"] mcs configServer k2 configServers
       Pcs Hk2 Hcs),
    (count_declared conv st fn ["mongos"] mm mongosList k3 mongos Pm Hk3 Hm) in *.
  exists exporter, (go.wrap64 (go.mul64 shards shardReplicas + configServers + mongos)).
  split; [done |]. split.
  - by apply (sharded_replica_total obj st).
  - injection Hrr as <-.
    rewrite lookup_insert_ne, lookup_insert_ne, lookup_insert_ne, lookup_singleton_eq
      by done.
    do 2 f_equal. unfold go.add64. by rewrite wrap64_add_l.
Qed.

(** X21.  Replicas of a Redis cluster.  When [spec.mode] is the cluster
    mode, [Replicas] is the int64 product of [spec.cluster.master] and
    [spec.cluster.replicas], each read as zero when absent; [spec.replicas]
    is not read. *)
Theorem Redis_Replicas_cluster obj masters replicas :
  unstructured.NestedString obj ["spec"; "mode"] = unstructured.Has DBModeCluster ->
  unstructured.orZero 0 (unstructured.NestedInt64 obj ["spec"; "cluster"; "master"])
  = go.Ok masters ->
  unstructured.orZero 0 (unstructured.NestedInt64 obj ["spec"; "cluster"; "replicas"])
  = go.Ok replicas ->
  api.Replicas Redis obj = go.Ok (go.mul64 masters replicas).
Proof.
  intros Hmode Hmasters Hreplicas.
  destruct roles_distinct as
    (? & ? & ? & ? & ? & ? & ? & ? & ? & ? & ? & ? & ? & ? & ? & ? & ? & ?).
  unfold api.Replicas, api.RoleReplicas. simpl.
  unfold v1alpha2.Redis_roleReplicasFn. rewrite Hmode. simpl.
  rewrite bool_decide_eq_true_2 by done. rewrite Hmasters, Hreplicas. simpl.
  rewrite lookup_insert_ne, lookup_insert_eq by done. simpl.
  rewrite add64_0_l. unfold go.mul64. by rewrite wrap64_idemp.
Qed.

(** X22.  Redis scales by the count it reports.  For a document whose
    [spec] is an object and whose [spec.replicas], if an integer, is an
    int64: whenever the role resources are produced and [Replicas] succeeds
    with [N], the default role holds the list that [AppNodeResources] reads
    at [spec] multiplied by [N] and the exporter role the list that
    [ContainerResources] reads at [spec.monitor.prometheus] multiplied by
    [N], in cluster mode and out of it. *)
Theorem Redis_scaled_by_Replicas obj sp fn rr N :
  obj !! "spec" = Some (VMap sp) ->
  (forall n, unstructured.NestedInt64 obj ["spec"; "replicas"] = unstructured.Has n ->
     go.fits_int64 n = true) ->
  v1alpha2.Redis_roleResourceFn DefaultPodRole ExporterPodRole DBModeCluster conv fn obj
  = go.Ok rr ->
  api.Replicas Redis obj = go.Ok N ->
  exists container k exporter,
    api.AppNodeResources conv obj fn ["spec"] = go.Ok (container, k) /\
    api.ContainerResources conv obj fn ["spec"; "monitor"; "prometheus"] = go.Ok exporter /\
    rr !! DefaultPodRole = Some (api.MulResourceList container N) /\
    rr !! ExporterPodRole = Some (api.MulResourceList exporter N).
Proof.
  intros Hsp Hint Hrr HN.
  destruct roles_distinct as
    (? & ? & ? & ? & ? & ? & ? & ? & ? & ? & ? & ? & ? & ? & ? & ? & ? & ?).
  assert (Hpath : unstructured.NestedFieldNoCopy obj ["spec"] = unstructured.Found (VMap sp))
    by (rewrite (NestedFieldNoCopy_step _ "spec" _ (VMap sp)) by done; reflexivity).
  unfold v1alpha2.Redis_roleResourceFn in Hrr.
  apply bind_Ok in Hrr as (exporter & Hexporter & Hrr).
  apply bind_Ok in Hrr as ([container k] & Hk & Hrr).
  pose proof (count_declared conv obj fn ["spec"] sp container k) as Ehas.
  pose proof (count_missing conv obj fn ["spec"] sp container k Hpath Hk) as Emissing.
  simpl in Ehas, Emissing.
  unfold api.Replicas, api.RoleReplicas in HN. simpl in HN.
  unfold v1alpha2.Redis_roleReplicasFn in HN.
  exists container, k, exporter.
  split; [exact Hk |]. split; [exact Hexporter |].
  assert (Hscale : exists k', rr = {[ DefaultPodRole := api.MulResourceList container k';
                                     ExporterPodRole := api.MulResourceList exporter k' ]}
                             /\ k' = N).
  { destruct (unstructured.NestedString obj ["spec"; "mode"]) as [mode | | err] eqn:Hmode;
      [| | done].
    - simpl in Hrr, HN. case_bool_decide.
      + apply bind_Ok in Hrr as (k' & Hk' & Hrr). injection Hrr as <-.
        exists k'. split; [done |].
        apply bind_Ok in Hk' as (masters & Hmasters & Hk').
        apply bind_Ok in Hk' as (replicas & Hreplicas & Hk'). injection Hk' as <-.
        rewrite Hmasters, Hreplicas in HN. simpl in HN.
        rewrite lookup_insert_ne, lookup_insert_eq in HN by done. simpl in HN.
        rewrite add64_0_l in HN. unfold go.mul64 in HN. rewrite wrap64_idemp in HN.
        by injection HN.
      + simpl in Hrr. injection Hrr as <-. exists k. split; [done |].
        destruct (unstructured.NestedInt64 obj ["spec"; "replicas"]) as [n | | err] eqn:Hn;
          [| | done]; simpl in HN; rewrite lookup_singleton_eq in HN; simpl in HN;
          injection HN as <-.
        * rewrite add64_0_l, wrap64_fits by auto. by apply Ehas.
        * by apply Emissing.
    - simpl in Hrr, HN. injection Hrr as <-. exists k. split; [done |].
      destruct (unstructured.NestedInt64 obj ["spec"; "replicas"]) as [n | | err] eqn:Hn;
        [| | done]; simpl in HN; rewrite lookup_singleton_eq in HN; simpl in HN;
        injection HN as <-.
      + rewrite add64_0_l, wrap64_fits by auto. by apply Ehas.
      + by apply Emissing. }
  destruct Hscale as (k' & -> & ->).
  split; [by rewrite lookup_insert_eq |].
  by rewrite lookup_insert_ne, lookup_singleton_eq.
Qed.

(** X23.  An unsharded MongoDB scales by the count it reports.  For a
    document without [spec.shardTopology], whose [spec] is an object and
    whose [spec.replicas], if an integer, is an int64: whenever the role
    resources are produced and [Replicas] succeeds with [N], the default
    role holds the list that [AppNodeResources] reads at [spec] multiplied
    by [N], the exporter role the list that [ContainerResources] reads at
    [spec.monitor.prometheus] multiplied by [N], and there is no shard
    role. *)
Theorem MongoDB_unsharded_scaled_by_Replicas obj sp fn rr N :
  obj !! "spec" = Some (VMap sp) ->
  unstructured.NestedMap obj ["spec"; "shardTopology"] = unstructured.Missing ->
  (forall n, unstructured.NestedInt64 obj ["spec"; "replicas"] = unstructured.Has n ->
     go.fits_int64 n = true) ->
  v1alpha2.MongoDB_roleResourceFn DefaultPodRole ExporterPodRole TotalShardPodRole
    ConfigServerPodRole MongosPodRole conv fn obj = go.Ok rr ->
  api.Replicas MongoDB obj = go.Ok N ->
  rr !! TotalShardPodRole = None /\
  exists container k exporter,
    api.AppNodeResources conv obj fn ["spec"] = go.Ok (container, k) /\
    api.ContainerResources conv obj fn ["spec"; "monitor"; "prometheus"] = go.Ok exporter /\
    rr !! DefaultPodRole = Some (api.MulResourceList container N) /\
    rr !! ExporterPodRole = Some (api.MulResourceList exporter N).
Proof.
  intros Hsp Hst Hint Hrr HN.
  destruct roles_distinct as
    (? & ? & ? & ? & ? & ? & ? & ? & ? & ? & ? & ? & ? & ? & ? & ? & ? & ?).
  assert (Hpath : unstructured.NestedFieldNoCopy obj ["spec"] = unstructured.Found (VMap sp))
    by (rewrite (NestedFieldNoCopy_step _ "spec" _ (VMap sp)) by done; reflexivity).
  unfold v1alpha2.MongoDB_roleResourceFn in Hrr.
  apply bind_Ok in Hrr as (exporter & Hexporter & Hrr). rewrite Hst in Hrr.
  apply bind_Ok in Hrr as ([container k] & Hk & Hrr). injection Hrr as <-.
  assert (Hnode : api.AppNodeResources conv obj fn ["spec"] = go.Ok (container, k))
    by exact Hk.
  pose proof (count_declared conv obj fn ["spec"] sp container k) as Ehas.
  pose proof (count_missing conv obj fn ["spec"] sp container k Hpath Hk) as Emissing.
  simpl in Ehas, Emissing.
  rewrite (MongoDB_plain_replicas obj Hst) in HN. unfold plainReplicas in HN.
  assert (k = N) as ->.
  { destruct (unstructured.NestedInt64 obj ["spec"; "replicas"]) as [n | | err] eqn:Hn;
      [| | done]; injection HN as <-.
    - rewrite wrap64_fits by auto. by apply Ehas.
    - by apply Emissing. }
  split; [by rewrite lookup_insert_ne, lookup_singleton_ne |].
  exists container, N, exporter.
  split; [exact Hnode |]. split; [exact Hexporter |].
  split; [by rewrite lookup_insert_eq |].
  by rewrite lookup_insert_ne, lookup_singleton_eq.
Qed.

End CalculatorProperties.

Lemma fixture_roles_distinct :
  NoDup (["default"; "exporter"; "total-shard"; "shard"; "per-shard"; "config-server";
          "mongos"] : list string).
Proof. apply (bool_decide_unpack _). vm_compute. exact I. Qed.

Lemma sharded_topology :
  unstructured.NestedMap fixture.sharded ["spec"; "shardTopology"]
  = unstructured.Has fixture.topology.
Proof.
  unfold unstructured.NestedMap.
  change ["spec"; "shardTopology"] with (["spec"] ++ ["shardTopology"] : list string).
  rewrite (NestedFieldNoCopy_snoc fixture.sharded ["spec"] fixture.shardedSpec).
  - unfold fixture.shardedSpec. rewrite lookup_insert_eq. reflexivity.
  - unfold fixture.sharded.
    rewrite (NestedFieldNoCopy_step _ "spec" _ (VMap fixture.shardedSpec))
      by apply lookup_singleton_eq.
    reflexivity.
Qed.

Lemma MongoDB_Replicas_sharded_witness :
  api.Replicas fixture.mongo fixture.sharded = go.Ok (2 * 3 + 3 + 2).
Proof.
  destruct (MongoDB_Replicas_sharded "default" "exporter" "total-shard" "shard" "per-shard"
             "config-server" "mongos" "Standalone" "ReplicaSet" "Sharded"
             fixture.converter fixture_roles_distinct fixture.sharded fixture.topology
             2 3 3 2) as [_ Hexact].
  - exact sharded_topology.
  - vm_compute. reflexivity.
  - vm_compute. reflexivity.
  - vm_compute. reflexivity.
  - vm_compute. reflexivity.
  - apply Hexact; vm_compute; reflexivity.
Defined.

Lemma Replicas_unsharded_witness :
  api.Replicas fixture.mongo fixture.workload = go.Ok 3 /\
  api.Replicas fixture.redis fixture.workload = go.Ok 3.
Proof.
  destruct (Replicas_unsharded "default" "exporter" "total-shard" "shard" "per-shard"
              "config-server" "mongos" "Standalone" "ReplicaSet" "Sharded" "Cluster"
              fixture.converter fixture_roles_distinct fixture.workload)
    as [Hmongo Hredis].
  split.
  - unfold fixture.mongo. rewrite Hmongo; vm_compute; reflexivity.
  - unfold fixture.redis.
    rewrite (Hredis unstructured.Missing).
    + vm_compute. reflexivity.
    + vm_compute. reflexivity.
    + intros err. discriminate.
    + reflexivity.
Defined.

Lemma workload_replicas : api.Replicas fixture.mongo fixture.workload = go.Ok 3.
Proof. vm_compute. reflexivity. Qed.

Lemma cluster_replicas : api.Replicas fixture.redis fixture.cluster = go.Ok 6.
Proof. vm_compute. reflexivity. Qed.

Lemma MongoDB_shardTopology_not_object_witness :
  api.Mode fixture.mongo fixture.nullTopology
  = go.Err (go.AccessorError ["spec"; "shardTopology"] VNull "map[string]interface{}") /\
  api.Replicas fixture.mongo fixture.nullTopology
  = go.Err (go.AccessorError ["spec"; "shardTopology"] VNull "map[string]interface{}").
Proof.
  destruct (MongoDB_shardTopology_not_object "default" "exporter" "total-shard" "shard"
              "per-shard" "config-server" "mongos" "Standalone" "ReplicaSet" "Sharded"
              fixture.converter fixture.nullTopology VNull) as (Hmode & Hreplicas & _).
  - vm_compute. reflexivity.
  - reflexivity.
  - split; [exact Hmode | exact Hreplicas].
Defined.

Lemma MongoDB_exporter_scaled_by_Replicas_witness :
  exists rr exporter N,
    api.RoleResourceLimits fixture.mongo fixture.sharded = go.Ok rr /\
    api.Replicas fixture.mongo fixture.sharded = go.Ok N /\
    rr !! "exporter" = Some (api.MulResourceList exporter N).
Proof.
  destruct (isOk_Ok (api.RoleResourceLimits fixture.mongo fixture.sharded))
    as [rr Hrr]; [vm_compute; reflexivity |].
  destruct (MongoDB_exporter_scaled_by_Replicas "default" "exporter" "total-shard" "shard"
              "per-shard" "config-server" "mongos" "Standalone" "ReplicaSet" "Sharded"
              fixture.converter fixture_roles_distinct fixture.sharded fixture.topology
              api.ResourceLimits rr 3 3 2)
    as (exporter & N & _ & HN & Hexporter).
  - exact sharded_topology.
  - vm_compute. reflexivity.
  - vm_compute. reflexivity.
  - vm_compute. reflexivity.
  - exact Hrr.
  - exists rr, exporter, N. split; [exact Hrr |]. split; [exact HN | exact Hexporter].
Defined.

Lemma Redis_Replicas_cluster_witness :
  api.Replicas fixture.redis fixture.cluster = go.Ok 6.
Proof.
  unfold fixture.redis.
  rewrite (Redis_Replicas_cluster "default" "exporter" "total-shard" "shard" "per-shard"
             "config-server" "mongos" "Standalone" "Cluster" fixture.converter
             fixture_roles_distinct fixture.cluster 3 2).
  - vm_compute. reflexivity.
  - vm_compute. reflexivity.
  - vm_compute. reflexivity.
  - vm_compute. reflexivity.
Defined.

Lemma Redis_scaled_by_Replicas_witness :
  exists rr container exporter,
    api.RoleResourceLimits fixture.redis fixture.cluster = go.Ok rr /\
    rr !! "default" = Some (api.MulResourceList container 6) /\
    rr !! "exporter" = Some (api.MulResourceList exporter 6).
Proof.
  destruct (isOk_Ok (api.RoleResourceLimits fixture.redis fixture.cluster))
    as [rr Hrr]; [vm_compute; reflexivity |].
  destruct (Redis_scaled_by_Replicas "default" "exporter" "total-shard" "shard" "per-shard"
              "config-server" "mongos" "Standalone" "Cluster" fixture.converter
              fixture_roles_distinct fixture.cluster fixture.clusterSpec
              api.ResourceLimits rr 6)
    as (container & k & exporter & _ & _ & Hdefault & Hexporter).
  - apply lookup_singleton_eq.
  - intros n Hn. vm_compute in Hn. discriminate Hn.
  - exact Hrr.
  - exact cluster_replicas.
  - exists rr, container, exporter.
    split; [exact Hrr |]. split; [exact Hdefault | exact Hexporter].
Defined.

Lemma MongoDB_unsharded_scaled_by_Replicas_witness :
  exists rr container exporter,
    api.RoleResourceLimits fixture.mongo fixture.workload = go.Ok rr /\
    rr !! "default" = Some (api.MulResourceList container 3) /\
    rr !! "exporter" = Some (api.MulResourceList exporter 3).
Proof.
  destruct (isOk_Ok (api.RoleResourceLimits fixture.mongo fixture.workload))
    as [rr Hrr]; [vm_compute; reflexivity |].
  destruct (MongoDB_unsharded_scaled_by_Replicas "default" "exporter" "total-shard" "shard"
              "per-shard" "config-server" "mongos" "Standalone" "ReplicaSet" "Sharded"
              fixture.converter fixture_roles_distinct fixture.workload fixture.spec
              api.ResourceLimits rr 3)
    as (_ & container & k & exporter & _ & _ & Hdefault & Hexporter).
  - apply lookup_singleton_eq.
  - vm_compute. reflexivity.
  - intros n Hn. vm_compute in Hn. injection Hn as <-. reflexivity.
  - exact Hrr.
  - exact workload_replicas.
  - exists rr, container, exporter.
    split; [exact Hrr |]. split; [exact Hdefault | exact Hexporter].
Defined.

Section ExporterRole.

Context (DefaultPodRole ExporterPodRole TotalShardPodRole ConfigServerPodRole
         MongosPodRole : api.PodRole).
Context (DBModeCluster : string).
Context (conv : runtime.UnstructuredConverter).

Context (Hroles : NoDup [DefaultPodRole; ExporterPodRole; TotalShardPodRole;
                         ConfigServerPodRole; MongosPodRole]).

Lemma MulResourceList_nil n : api.MulResourceList None n = Some ∅.
Proof. reflexivity. Qed.

(** X24.  Without monitoring the exporter costs nothing.  When
    [spec.monitor.prometheus] is absent from the document and the role
    resources are produced, the exporter role of the MongoDB calculator
    (sharded or not) and of the Redis calculator is the empty list, whatever
    the replica counts. *)
Theorem exporter_absent_is_empty obj fn rr :
  unstructured.NestedFieldNoCopy obj ["spec"; "monitor"; "prometheus"]
  = unstructured.NotFound ->
  (v1alpha2.MongoDB_roleResourceFn DefaultPodRole ExporterPodRole TotalShardPodRole
     ConfigServerPodRole MongosPodRole conv fn obj = go.Ok rr ->
   rr !! ExporterPodRole = Some (Some ∅)) /\
  (v1alpha2.Redis_roleResourceFn DefaultPodRole ExporterPodRole DBModeCluster conv fn obj
   = go.Ok rr ->
   rr !! ExporterPodRole = Some (Some ∅)).
Proof.
  intros Hmonitor.
  assert (Hexporter : api.ContainerResources conv obj fn ["spec"; "monitor"; "prometheus"]
                      = go.Ok None)
    by (unfold api.ContainerResources; by rewrite Hmonitor).
  repeat (apply NoDup_cons in Hroles as [? Hroles]).
  assert (DefaultPodRole <> ExporterPodRole /\ TotalShardPodRole <> ExporterPodRole /\
          ConfigServerPodRole <> ExporterPodRole /\ MongosPodRole <> ExporterPodRole)
    as (? & ? & ? & ?) by (repeat split; set_solver).
  split; intros Hrr.
  - unfold v1alpha2.MongoDB_roleResourceFn in Hrr. rewrite Hexporter in Hrr. simpl in Hrr.
    destruct (unstructured.NestedMap obj ["spec"; "shardTopology"]) as [st | |];
      [| | done].
    + apply bind_Ok in Hrr as (shards & _ & Hrr).
      apply bind_Ok in Hrr as ([shard k1] & _ & Hrr).
      apply bind_Ok in Hrr as ([configServer k2] & _ & Hrr).
      apply bind_Ok in Hrr as ([mongos k3] & _ & Hrr).
      injection Hrr as <-.
      by rewrite lookup_insert_ne, lookup_insert_ne, lookup_insert_ne, lookup_singleton_eq,
        MulResourceList_nil.
    + apply bind_Ok in Hrr as ([container k] & _ & Hrr). injection Hrr as <-.
      by rewrite lookup_insert_ne, lookup_singleton_eq, MulResourceList_nil.
  - unfold v1alpha2.Redis_roleResourceFn in Hrr. rewrite Hexporter in Hrr. simpl in Hrr.
    apply bind_Ok in Hrr as ([container k] & _ & Hrr).
    destruct (unstructured.NestedString obj ["spec"; "mode"]) as [mode | |]; [| | done];
      simpl in Hrr; try case_bool_decide;
      try (apply bind_Ok in Hrr as (k' & _ & Hrr)); simpl in Hrr; injection Hrr as <-;
      by rewrite lookup_insert_ne, lookup_singleton_eq, MulResourceList_nil.
Qed.

End ExporterRole.

Lemma exporter_absent_is_empty_witness :
  exists rr,
    api.RoleResourceLimits fixture.redis fixture.cluster = go.Ok rr /\
    rr !! "exporter" = Some (Some ∅).
Proof.
  destruct (isOk_Ok (api.RoleResourceLimits fixture.redis fixture.cluster))
    as [rr Hrr]; [vm_compute; reflexivity |].
  exists rr. split; [exact Hrr |].
  destruct (exporter_absent_is_empty "default" "exporter" "total-shard" "config-server"
              "mongos" "Cluster" fixture.converter) with (obj := fixture.cluster)
              (fn := api.ResourceLimits) (rr := rr) as [_ Hredis].
  - apply (bool_decide_unpack _). vm_compute. exact I.
  - vm_compute. reflexivity.
  - apply Hredis. exact Hrr.
Defined.
